(** * Hourly weather backfill: the CSV store, the gap detector and the
      fetch orchestrator of [weather_fetcher.py]

    A shallow embedding of [WeatherFetcher] and the properties of its
    store, gap detector and orchestrator.

    Modelling choices, stated once:
    - a timezone-aware UTC [datetime] is a record of the proleptic Gregorian
      ordinal of its date (what [toordinal()] returns, and what [datetime]
      arithmetic computes with) and its hour, minute, second and microsecond
      fields.  The calendar enters where the source prints or parses a date
      ([isoformat], [pd.to_datetime]) and where a date leaves the years
      1..9999: [now - timedelta(hours=i)] raises [OverflowError] and
      [datetime.fromtimestamp] raises [ValueError] there, as in Python;
    - the numbers of the JSON payload (temperature, humidity, latitude,
      longitude) are an abstract type [num] with the text the csv writer
      prints for them ([num_str]).  A frame read from a file carries the
      cells of its two numeric columns as the text they are in the file:
      the dtype pandas infers for them and its parsing of floating point
      numbers are not modelled, and nothing in [weather_fetcher.py] looks
      at these columns of a loaded frame;
    - a CSV file is the list of its lines, a line the list of its cells; the
      quoting and line terminators of the csv module are below this model;
    - the wall clock, the file system and the two HTTP endpoints are explicit:
      [now] is an argument, the files and the trace of outward effects are
      the state of a state-and-exception monad, the endpoints are functions
      of the request;
    - console output ([print]) is not modelled. *)

From Stdlib Require Import ZArith Lia String Ascii List.
From Stdlib Require Import DecimalString DecimalZ.
From stdpp Require Import base option list strings gmap.

Local Open Scope Z_scope.

(** ** The proleptic Gregorian calendar of the [datetime] module *)

Module Calendar.

Definition MINYEAR : Z := 1.
Definition MAXYEAR : Z := 9999.
(** [date(9999, 12, 31).toordinal()] *)
Definition MAXORDINAL : Z := 3652059.

Definition DAYS_IN_MONTH : list Z :=
  [-1; 31; 28; 31; 30; 31; 30; 31; 31; 30; 31; 30; 31].

Definition DAYS_BEFORE_MONTH : list Z :=
  [-1; 0; 31; 59; 90; 120; 151; 181; 212; 243; 273; 304; 334].

Definition table (t : list Z) (month : Z) : Z := nth (Z.to_nat month) t (-1).

Definition is_leap (year : Z) : bool :=
  (year mod 4 =? 0) && (negb (year mod 100 =? 0) || (year mod 400 =? 0)).

Definition days_before_year (year : Z) : Z :=
  let y := year - 1 in y * 365 + y / 4 - y / 100 + y / 400.

Definition days_in_month (year month : Z) : Z :=
  if (month =? 2) && is_leap year then 29 else table DAYS_IN_MONTH month.

Definition days_before_month (year month : Z) : Z :=
  table DAYS_BEFORE_MONTH month
  + (if (2 <? month) && is_leap year then 1 else 0).

Definition ymd2ord (year month day : Z) : Z :=
  days_before_year year + days_before_month year month + day.

Definition DI400Y : Z := 146097.
Definition DI100Y : Z := 36524.
Definition DI4Y : Z := 1461.

(** The date of an ordinal inside one 400-year cycle: [n] is the number of
    days since the first day of the cycle, [base] the year before the
    cycle's first. *)
Definition ord2ymd_cycle (base n : Z) : Z * Z * Z :=
  let n100 := n / DI100Y in
  let n := n mod DI100Y in
  let n4 := n / DI4Y in
  let n := n mod DI4Y in
  let n1 := n / 365 in
  let n := n mod 365 in
  let year := base + 1 + n100 * 100 + n4 * 4 + n1 in
  if (n1 =? 4) || (n100 =? 4) then (year - 1, 12, 31)
  else
    let leapyear := (n1 =? 3) && (negb (n4 =? 24) || (n100 =? 3)) in
    let month := Z.shiftr (n + 50) 5 in
    let preceding :=
      table DAYS_BEFORE_MONTH month
      + (if (2 <? month) && leapyear then 1 else 0) in
    if n <? preceding then
      let month := month - 1 in
      let preceding :=
        preceding
        - (table DAYS_IN_MONTH month
           + (if (month =? 2) && leapyear then 1 else 0)) in
      (year, month, n - preceding + 1)
    else (year, month, n - preceding + 1).

Definition ord2ymd (n : Z) : Z * Z * Z :=
  let n := n - 1 in
  ord2ymd_cycle (n / DI400Y * 400) (n mod DI400Y).

Definition valid_ymd (year month day : Z) : bool :=
  (MINYEAR <=? year) && (year <=? MAXYEAR)
  && (1 <=? month) && (month <=? 12)
  && (1 <=? day) && (day <=? days_in_month year month).

(** What one day of a 400-year cycle has to satisfy for [ord2ymd] and
    [ymd2ord] to be inverse on it; the last year of the cycle starts at
    day 145731. *)
Definition cycle_day_ok (r : Z) : bool :=
  let '(y, m, d) := ord2ymd_cycle 0 r in
  (1 <=? y) && (y <=? 400) && ((145730 <? r) || (y <=? 399))
  && (1 <=? m) && (m <=? 12) && (1 <=? d) && (d <=? days_in_month y m)
  && (ymd2ord y m d =? r + 1).

(** [check] on the [n] days from [lo] on. *)
Fixpoint all_days (check : Z -> bool) (lo : Z) (n : nat) : bool :=
  match n with
  | O => true
  | S n' => if check lo then all_days check (lo + 1) n' else false
  end.

End Calendar.

(** ** Exceptions *)

Inductive exn : Type :=
| KeyError (key : string)
| ValueError (msg : string)
| OverflowError
| HTTPError
| ConnectionError
| EmptyDataError
| ParserError.

Inductive result (A : Type) : Type :=
| Ok (a : A)
| Raise (e : exn).
Arguments Ok {A} a.
Arguments Raise {A} e.

#[global] Instance exn_eq_dec : EqDecision exn.
Proof. solve_decision. Defined.

#[global] Instance result_eq_dec {A} `{EqDecision A} : EqDecision (result A).
Proof. solve_decision. Defined.

(** ** Aware UTC datetimes *)

Record datetime : Type := mk_datetime {
  ordinal : Z;
  hour : Z;
  minute : Z;
  second : Z;
  microsecond : Z
}.

#[global] Instance datetime_eq_dec : EqDecision datetime.
Proof. solve_decision. Defined.

Module DT.

(** [date(1970, 1, 1).toordinal()] *)
Definition EPOCH_ORDINAL : Z := 719163.

(** [datetime(year, month, day, hh, mm, ss, us, tzinfo=timezone.utc)] *)
Definition of_fields (year month day hh mm ss us : Z) : datetime :=
  mk_datetime (Calendar.ymd2ord year month day) hh mm ss us.

Definition valid (t : datetime) : Prop :=
  1 <= ordinal t <= Calendar.MAXORDINAL
  /\ 0 <= hour t < 24 /\ 0 <= minute t < 60 /\ 0 <= second t < 60
  /\ 0 <= microsecond t < 1000000.

(** The range check of the [datetime] module on a computed date:
    [0 < days <= _MAXORDINAL], the days of the years 1..9999. *)
Definition in_calendar (t : datetime) : bool :=
  (0 <? ordinal t) && (ordinal t <=? Calendar.MAXORDINAL).

Definition seconds_of_day (t : datetime) : Z :=
  hour t * 3600 + minute t * 60 + second t.

(** Microseconds since 1970-01-01T00:00:00Z: the instant. *)
Definition to_micros (t : datetime) : Z :=
  ((ordinal t - EPOCH_ORDINAL) * 86400 + seconds_of_day t) * 1000000
  + microsecond t.

(** The instants pandas holds as a count of nanoseconds in 64 bits, from
    1677-09-21 to 2262-04-11: where pandas keeps timestamps in nanoseconds,
    [pd.to_datetime] raises [OutOfBoundsDatetime] outside of them. *)
Definition in_timestamp_range (t : datetime) : Prop :=
  -9223372036854775 <= to_micros t <= 9223372036854775.

(** The fields [t - timedelta(hours=i)] computes, before it checks their
    range: the day and the second of the day are renormalised, the
    microseconds are untouched. *)
Definition hours_before (t : datetime) (i : Z) : datetime :=
  let secs := seconds_of_day t - i * 3600 in
  let s := secs mod 86400 in
  {| ordinal := ordinal t + secs / 86400;
     hour := s / 3600;
     minute := s mod 3600 / 60;
     second := s mod 3600 mod 60;
     microsecond := microsecond t |}.

(** [t - timedelta(hours=i)]: [OverflowError] when the date is outside the
    years 1..9999 (and, for an [i] too large for a [timedelta], already
    when the [timedelta] is built). *)
Definition sub_hours (t : datetime) (i : Z) : result datetime :=
  let r := hours_before t i in
  if in_calendar r then Ok r else Raise OverflowError.

(** [t.replace(minute=0, second=0, microsecond=0)] *)
Definition floor_to_hour (t : datetime) : datetime :=
  {| ordinal := ordinal t; hour := hour t;
     minute := 0; second := 0; microsecond := 0 |}.

(** [int(t.timestamp())]: whole seconds since the epoch, truncated towards
    zero by [int]. *)
Definition timestamp (t : datetime) : Z := Z.quot (to_micros t) 1000000.

(** The fields of the Unix time [ts]. *)
Definition of_unix (ts : Z) : datetime :=
  let s := ts mod 86400 in
  {| ordinal := EPOCH_ORDINAL + ts / 86400;
     hour := s / 3600;
     minute := s mod 3600 / 60;
     second := s mod 3600 mod 60;
     microsecond := 0 |}.

(** The year of a date, also of one outside the calendar. *)
Definition year_of (t : datetime) : Z :=
  let '(y, _, _) := Calendar.ord2ymd (ordinal t) in y.

(** [datetime.fromtimestamp(ts, tz=timezone.utc)] for an integer [ts]: it
    raises [ValueError] when the year is not one of 1..9999 (for a year
    that no C [int] holds the exception is [OverflowError] or [OSError]
    instead, which the program does not tell apart). *)
Definition fromtimestamp (ts : Z) : result datetime :=
  let r := of_unix ts in
  if in_calendar r then Ok r
  else Raise (ValueError ("year " +:+ NilEmpty.string_of_int
                                        (Z.to_int (year_of r))
                          +:+ " is out of range")).

(** *** [isoformat] and its parser *)

Definition digit_char (d : Z) : ascii := ascii_of_nat (48 + Z.to_nat d).

Definition digit_val (c : ascii) : option Z :=
  let n := nat_of_ascii c in
  if ((48 <=? n) && (n <=? 57))%nat then Some (Z.of_nat (n - 48)) else None.

(** ["%0<width>d" % n] for [0 <= n < 10 ^ width] *)
Fixpoint zero_pad (width : nat) (n : Z) : string :=
  match width with
  | O => ""%string
  | S w => (zero_pad w (n / 10) +:+ String (digit_char (n mod 10)) "")%string
  end.

(** ["%04d-%02d-%02dT%02d:%02d:%02d"], the microseconds when they are not
    zero, and the offset of UTC. *)
Definition isoformat (t : datetime) : string :=
  let '(y, m, d) := Calendar.ord2ymd (ordinal t) in
  (zero_pad 4 y +:+ "-" +:+ zero_pad 2 m +:+ "-" +:+ zero_pad 2 d
   +:+ "T" +:+ zero_pad 2 (hour t) +:+ ":" +:+ zero_pad 2 (minute t)
   +:+ ":" +:+ zero_pad 2 (second t)
   +:+ (if Z.eqb (microsecond t) 0 then ""
        else "." +:+ zero_pad 6 (microsecond t))
   +:+ "+00:00")%string.

Fixpoint read_digits (width : nat) (acc : Z) (s : string)
  : option (Z * string) :=
  match width with
  | O => Some (acc, s)
  | S w =>
      match s with
      | String c s' => d ← digit_val c; read_digits w (10 * acc + d) s'
      | EmptyString => None
      end
  end.

Definition expect (c : ascii) (s : string) : option string :=
  match s with
  | String c' s' => if decide (c = c') then Some s' else None
  | EmptyString => None
  end.

(** The two formats [isoformat] prints in: ["%Y-%m-%dT%H:%M:%S%z"] when
    the microseconds are zero, ["%Y-%m-%dT%H:%M:%S.%f%z"] otherwise. *)
Inductive iso_format : Type :=
| Seconds
| Microseconds.

Definition read_fraction (fmt : iso_format) (s : string)
  : option (Z * string) :=
  match fmt with
  | Seconds => Some (0, s)
  | Microseconds =>
      match s with
      | String "."%char s' => read_digits 6 0 s'
      | _ => None
      end
  end.

(** One cell read in one format, for the texts [isoformat] prints (other
    spellings of a date count as unparseable here): the text has to match
    the format to its end. *)
Definition strptime (fmt : iso_format) (s : string) : option datetime :=
  '(y, s) ← read_digits 4 0 s; s ← expect "-"%char s;
  '(m, s) ← read_digits 2 0 s; s ← expect "-"%char s;
  '(d, s) ← read_digits 2 0 s; s ← expect "T"%char s;
  '(hh, s) ← read_digits 2 0 s; s ← expect ":"%char s;
  '(mm, s) ← read_digits 2 0 s; s ← expect ":"%char s;
  '(ss, s) ← read_digits 2 0 s;
  '(us, s) ← read_fraction fmt s;
  if decide (s = "+00:00"%string) then
    if Calendar.valid_ymd y m d && (hh <? 24) && (mm <? 60) && (ss <? 60)
    then Some (of_fields y m d hh mm ss us)
    else None
  else None.

(** The format pandas infers from a cell. *)
Definition guess_datetime_format (s : string) : option iso_format :=
  if strptime Seconds s is Some _ then Some Seconds
  else if strptime Microseconds s is Some _ then Some Microseconds
  else None.

End DT.

(** ** The numbers of the payload and their CSV text *)

Class Numbers : Type := {
  num : Type;
  (** the text the csv writer prints for a number *)
  num_str : num -> string
}.

(** ** Data model *)

(** One row of the table [timestamp, temperature, humidity]. *)
Record row (T V : Type) : Type := mk_row {
  timestamp : T;
  temperature : V;
  humidity : V
}.
Arguments mk_row {T V} _ _ _.
Arguments timestamp {T V} _.
Arguments temperature {T V} _.
Arguments humidity {T V} _.

(** A frame fresh from [read_csv]: every cell is text. *)
Definition RawFrame : Type := list (row string string).

(** A frame with the columns [timestamp, temperature, humidity] after
    [pd.to_datetime] on the first: instants, and the cells of the two other
    columns. *)
Definition DataFrame : Type := list (row datetime string).

(** [data_exists] takes [int | datetime]. *)
Inductive timestamp_arg : Type :=
| Int (ts : Z)
| Datetime (t : datetime).

Section Data.
Context {Nm : Numbers}.

(** The dict [extract_hourly_data] builds. *)
Definition WeatherRecord : Type := row datetime num.

(** One element of the geocoding answer. *)
Record place : Type := mk_place { lat : num; lon : num }.

(** One element of the [data] array of the weather answer. *)
Record hour_data : Type := mk_hour_data {
  dt : Z;
  temp : num;
  hd_humidity : num
}.

(** The weather answer: the [data] key may be missing. *)
Record weather_data : Type := mk_weather_data {
  data : option (list hour_data)
}.

End Data.

(** ** The two endpoints *)

Class Upstream {Nm : Numbers} : Type := {
  (** the geocoding endpoint: the parsed JSON array, or the exception of
      [requests.get] / [raise_for_status] *)
  geocoding : string -> result (list place);
  (** the timemachine endpoint for [lat], [lon] and [dt] *)
  timemachine : num -> num -> Z -> result weather_data
}.

(** ** Files, effects and the monad of the fetcher *)

Definition line : Type := list string.
Definition file : Type := list line.

Inductive event {Nm : Numbers} : Type :=
| GeocodingRequest (q : string)
| WeatherRequest (lat lon : num) (dt : Z)
| FileAppend (path : string) (lines : list line).

Record world {Nm : Numbers} : Type := mk_world {
  files : gmap string file;
  trace : list event
}.

Definition M {Nm : Numbers} (A : Type) : Type := world -> result A * world.

#[global] Instance M_ret {Nm : Numbers} : MRet M := fun A a w => (Ok a, w).
#[global] Instance M_bind {Nm : Numbers} : MBind M := fun A B f m w =>
  match m w with
  | (Ok a, w') => f a w'
  | (Raise e, w') => (Raise e, w')
  end.

Section Effects.
Context {Nm : Numbers}.

Definition raise {A} (e : exn) : M A := fun w => (Raise e, w).

Definition lift {A} (r : result A) : M A := fun w => (r, w).

(** [try: m  except Exception as e: handler e] *)
Definition try_except {A} (m : M A) (handler : exn -> M A) : M A := fun w =>
  match m w with
  | (Ok a, w') => (Ok a, w')
  | (Raise e, w') => handler e w'
  end.

Definition emit (ev : event) : M unit := fun w =>
  (Ok tt, {| files := files w; trace := trace w ++ [ev] |}).

(** [os.path.exists] and [os.path.isfile] *)
Definition path_exists (path : string) : M bool := fun w =>
  (Ok (bool_decide (is_Some (files w !! path))), w).

Definition read_file (path : string) : M file := fun w =>
  (Ok (default ([] : file) (files w !! path)), w).

(** Writing [lines] through a handle opened with [open(path, "a")]: the
    file is created when it is absent. *)
Definition append_file (path : string) (lines : list line) : M unit :=
  fun w =>
  (Ok tt,
   {| files :=
        <[path := default ([] : file) (files w !! path) ++ lines]> (files w);
      trace := trace w ++ [FileAppend path lines] |}).

(** [for x in xs: s = body s x] *)
Fixpoint for_loop {A S} (body : S -> A -> M S) (xs : list A) (s : S) : M S :=
  match xs with
  | [] => mret s
  | x :: xs' => s' ← body s x; for_loop body xs' s'
  end.

(** [range(start, stop)] *)
Definition range (start stop : Z) : list Z := seqZ start (stop - start).

End Effects.

(** ** [weather_fetcher.py] *)

Definition DATA_DIR : string := "weather_data".

Record city_info : Type := mk_city_info {
  query : string;
  filename : string
}.

(** The dict literal, in its insertion order. *)
Definition CITIES : list (string * city_info) :=
  [ ("Cape Town", mk_city_info "Cape Town,ZA" "cape_town_weather.csv");
    ("Kigali", mk_city_info "Kigali,RW" "kigali_weather.csv");
    ("Kampala", mk_city_info "Kampala,UG" "kampala_weather.csv") ].

(** [d[key]] on a dict given by its items *)
Fixpoint getitem {V} (d : list (string * V)) (key : string) : result V :=
  match d with
  | [] => Raise (KeyError key)
  | (k, v) :: d' => if decide (k = key) then Ok v else getitem d' key
  end.

(** [d.keys()] *)
Definition keys {V} (d : list (string * V)) : list string := map fst d.

(** [os.path.join(a, b)] for a relative [b] *)
Definition path_join (a b : string) : string := a +:+ "/" +:+ b.

Definition fieldnames : line := ["timestamp"; "temperature"; "humidity"]%string.


Section WeatherFetcher.
Context {Nm : Numbers} {Up : Upstream}.

Definition get_city_coordinates (city_query : string) : M (num * num) :=
  emit (GeocodingRequest city_query);;
  data ← lift (geocoding city_query);
  match data with
  | [] => raise (ValueError ("City not found: " +:+ city_query))
  | p :: _ => mret (lat p, lon p)
  end.

Definition get_historical_weather (lat lon : num) (ts : Z)
  : M weather_data :=
  emit (WeatherRequest lat lon ts);;
  lift (timemachine lat lon ts).

Definition get_csv_path (city_name : string) : M string :=
  info ← lift (getitem CITIES city_name);
  mret (path_join DATA_DIR (filename info)).

(** *** The store: [pd.read_csv], [pd.to_datetime], [load_existing_data] *)

Definition parse_line (l : line) : result (row string string) :=
  match l with
  | [ts; t; h] => Ok (mk_row ts t h)
  | _ => Raise ParserError
  end.

Fixpoint parse_lines (ls : list line) : result RawFrame :=
  match ls with
  | [] => Ok []
  | l :: ls' =>
      match parse_line l, parse_lines ls' with
      | Ok r, Ok rs => Ok (r :: rs)
      | Raise e, _ => Raise e
      | _, Raise e => Raise e
      end
  end.

(** [pd.read_csv] on the lines of a file: no line at all is pandas'
    [EmptyDataError]; the first line names the columns.  A file whose
    header is not the three field names, or with a line that is not three
    cells, is not of the shape this program writes and counts as
    malformed. *)
Definition read_csv (path : string) : M RawFrame :=
  f ← read_file path;
  match f with
  | [] => raise EmptyDataError
  | header :: body =>
      if decide (header = fieldnames) then lift (parse_lines body)
      else raise ParserError
  end.

(** Every cell of the timestamp column read in the one format [fmt]. *)
Fixpoint strptime_column (fmt : DT.iso_format) (df : RawFrame)
  : result DataFrame :=
  match df with
  | [] => Ok []
  | r :: df' =>
      match DT.strptime fmt (timestamp r), strptime_column fmt df' with
      | Some t, Ok rs => Ok (mk_row t (temperature r) (humidity r) :: rs)
      | None, _ => Raise (ValueError "time data doesn't match format")
      | _, Raise e => Raise e
      end
  end.

(** [pd.to_datetime] on the timestamp column: the format is inferred from
    the first cell, and every cell has to match it. *)
Definition to_datetime (df : RawFrame) : result DataFrame :=
  match df with
  | [] => Ok []
  | r :: _ =>
      match DT.guess_datetime_format (timestamp r) with
      | Some fmt => strptime_column fmt df
      | None => Raise (ValueError "unable to parse timestamp")
      end
  end.

(** [pd.DataFrame(columns=["timestamp", "temperature", "humidity"])] *)
Definition empty_frame : DataFrame := [].

Definition load_existing_data (city_name : string) : M DataFrame :=
  csv_path ← get_csv_path city_name;
  present ← path_exists csv_path;
  if present : bool then
    try_except
      (df ← read_csv csv_path;
       lift (to_datetime df))
      (fun _ => mret empty_frame)
  else mret empty_frame.

Definition data_exists (existing_df : DataFrame) (ts : timestamp_arg)
  : result bool :=
  match existing_df with
  | [] => Ok false
  | _ =>
      match (match ts with
             | Int n => DT.fromtimestamp n
             | Datetime t => Ok t
             end) with
      | Ok ts =>
          let matches :=
            filter (fun r => timestamp r = ts) existing_df in
          Ok (bool_decide (0 < length matches)%nat)
      | Raise e => Raise e
      end
  end.

Definition extract_hourly_data (response : weather_data)
    (target_timestamp : Z) : result (option WeatherRecord) :=
  match data response with
  | Some (hour_data :: _) =>
      match DT.fromtimestamp (dt hour_data) with
      | Ok t => Ok (Some (mk_row t (temp hour_data) (hd_humidity hour_data)))
      | Raise e => Raise e
      end
  | _ => Ok None
  end.

Definition csv_line (record : WeatherRecord) : line :=
  [ DT.isoformat (timestamp record);
    num_str (temperature record);
    num_str (humidity record) ].

Definition save_to_csv (city_name : string)
    (data_records : list WeatherRecord) : M unit :=
  match data_records with
  | [] => mret tt
  | _ =>
      csv_path ← get_csv_path city_name;
      file_exists ← path_exists csv_path;
      append_file csv_path
        ((if file_exists : bool then [] else [fieldnames])
         ++ map csv_line data_records)
  end.

(** *** The gap detector *)

(** [(now - timedelta(hours=i)).replace(minute=0, second=0, microsecond=0)] *)
Definition target_hour (now : datetime) (i : Z) : result datetime :=
  match DT.sub_hours now i with
  | Ok t => Ok (DT.floor_to_hour t)
  | Raise e => Raise e
  end.

Definition get_missing_hours (now : datetime) (city_name : string)
    (hours_back : Z) : M (list datetime) :=
  existing_df ← load_existing_data city_name;
  for_loop
    (fun missing_hours i =>
       target ← lift (target_hour now i);
       present ← lift (data_exists existing_df (Datetime target));
       if negb present then mret (missing_hours ++ [target])
       else mret missing_hours)
    (range 1 (hours_back + 1)) [].

(** *** The orchestrator *)

(** The body of the loop over [target_times], with its [try] and
    [except ... continue]. *)
Definition fetch_hour (lat lon : num) (new_records : list WeatherRecord)
    (target_time : datetime) : M (list WeatherRecord) :=
  try_except
    (response ← get_historical_weather lat lon (DT.timestamp target_time);
     record ← lift (extract_hourly_data response (DT.timestamp target_time));
     match record with
     | Some record => mret (new_records ++ [record])
     | None => mret new_records
     end)
    (fun _ => mret new_records).

Definition fetch_city_data (city_name : string)
    (target_times : list datetime) : M unit :=
  match target_times with
  | [] => mret tt
  | _ =>
      info ← lift (getitem CITIES city_name);
      try_except
        ('(lat, lon) ← get_city_coordinates (query info);
         new_records ← for_loop (fetch_hour lat lon) target_times [];
         match new_records with
         | [] => mret tt
         | _ => save_to_csv city_name new_records
         end)
        (fun _ => mret tt)
  end.

(** The body of the loop of [fetch_missing_data] over the cities. *)
Definition fetch_missing_city (now : datetime) (max_hours_back : Z)
    (city_name : string) : M unit :=
  missing_hours ← get_missing_hours now city_name max_hours_back;
  match missing_hours with
  | [] => mret tt
  | _ => fetch_city_data city_name missing_hours
  end.

Definition fetch_missing_data (now : datetime) (max_hours_back : Z)
  : M unit :=
  for_loop (fun _ city_name => fetch_missing_city now max_hours_back city_name)
           (keys CITIES) tt.

Definition fetch_latest_hour (now : datetime) : M unit :=
  latest_hour ← lift (target_hour now 1);
  for_loop
    (fun _ city_name =>
       existing_df ← load_existing_data city_name;
       present ← lift (data_exists existing_df (Datetime latest_hour));
       if present : bool then mret tt
       else fetch_city_data city_name [latest_hour])
    (keys CITIES) tt.

End WeatherFetcher.

(** ** Concrete numbers and endpoints, for the examples *)

Module Examples.

(** Whole numbers in decimal. *)
Definition decimal_numbers : Numbers :=
  {| num := Z;
     num_str := fun z => NilEmpty.string_of_int (Z.to_int z) |}.

Definition cape_town : @place decimal_numbers :=
  @mk_place decimal_numbers (-34) 18.

Definition observation (dt : Z) : @weather_data decimal_numbers :=
  @mk_weather_data decimal_numbers
    (Some [@mk_hour_data decimal_numbers dt 21 60]).

(** An endpoint that answers every hour with the hour asked for. *)
Definition echo_upstream : @Upstream decimal_numbers :=
  {| geocoding := fun _ => Ok [cape_town];
     timemachine := fun _ _ ts => Ok (observation ts) |}.

(** 2024-01-01T09:00:00Z is answered as asked; every other hour is answered
    with the observation of 2024-01-01T06:00:00Z. *)
Definition snapping_upstream : @Upstream decimal_numbers :=
  {| geocoding := fun _ => Ok [cape_town];
     timemachine := fun _ _ ts =>
       Ok (observation (if ts =? 1704099600 then ts else 1704088800)) |}.

(** 09:00 fails with an HTTP error, 08:00 has an empty [data] array, 07:00
    has no [data] key, every other hour is answered as asked. *)
Definition flaky_upstream : @Upstream decimal_numbers :=
  {| geocoding := fun _ => Ok [cape_town];
     timemachine := fun _ _ ts =>
       if ts =? 1704099600 then Raise HTTPError
       else if ts =? 1704096000
            then Ok (@mk_weather_data decimal_numbers (Some []))
       else if ts =? 1704092400
            then Ok (@mk_weather_data decimal_numbers None)
       else Ok (observation ts) |}.

(** Every hour is answered with the first second of the year 10000, which
    no [datetime] can hold. *)
Definition far_upstream : @Upstream decimal_numbers :=
  {| geocoding := fun _ => Ok [cape_town];
     timemachine := fun _ _ _ => Ok (observation 253402300800) |}.

Definition empty_world : @world decimal_numbers :=
  @mk_world decimal_numbers ∅ [].

(** 2024-01-01T10:15:00Z *)
Definition now : datetime := DT.of_fields 2024 1 1 10 15 0 0.

Definition cape_town_csv : string := "weather_data/cape_town_weather.csv".

Definition cape_town_info : city_info :=
  mk_city_info "Cape Town,ZA" "cape_town_weather.csv".

(** 2024-01-01 at [h] o'clock *)
Definition at_hour (h : Z) : datetime := DT.of_fields 2024 1 1 h 0 0 0.

(** The request for the hour of Unix time [ts] at Cape Town. *)
Definition request (ts : Z) : @event decimal_numbers :=
  @WeatherRequest decimal_numbers (-34) 18 ts.

(** A record of 21 degrees and 60 percent at [t]. *)
Definition reading (t : datetime) : @WeatherRecord decimal_numbers :=
  mk_row t 21 60.

(** The row of a frame for 21 degrees and 60 percent at [t]. *)
Definition stored_reading (t : datetime) : row datetime string :=
  mk_row t "21"%string "60"%string.

End Examples.

(** ** Vocabulary of the statements *)

Section Vocabulary.
Context {Nm : Numbers} {Up : Upstream}.

(** The path of a configured city's store. *)
Definition store_path (info : city_info) : string :=
  path_join DATA_DIR (filename info).

(** The instant [data_exists] compares with. *)
Definition instant_of (ts : timestamp_arg) : result datetime :=
  match ts with
  | Int n => DT.fromtimestamp n
  | Datetime t => Ok t
  end.

(** The frame the two library calls of [load_existing_data] make of the
    lines of a file. *)
Definition frame_of_file (f : file) : result DataFrame :=
  match f with
  | [] => Raise EmptyDataError
  | header :: body =>
      if decide (header = fieldnames) then
        match parse_lines body with
        | Ok raw => to_datetime raw
        | Raise e => Raise e
        end
      else Raise ParserError
  end.

(** The records a store holds, as [load_existing_data] sees them. *)
Definition loaded (f : option file) : DataFrame :=
  match f with
  | None => empty_frame
  | Some f =>
      match frame_of_file f with
      | Ok df => df
      | Raise _ => empty_frame
      end
  end.

(** The frame a file with the header and lines of three cells makes when
    every timestamp is in the format [fmt]. *)
Definition frame_of_file_in (fmt : DT.iso_format) (f : file)
  : result DataFrame :=
  match f with
  | [] => Raise EmptyDataError
  | header :: body =>
      if decide (header = fieldnames) then
        match parse_lines body with
        | Ok raw => strptime_column fmt raw
        | Raise e => Raise e
        end
      else Raise ParserError
  end.

(** A timestamp this program writes and reads back: a valid datetime on a
    whole second, as [datetime.fromtimestamp] makes of an integer, at an
    instant pandas holds in nanoseconds. *)
Definition storable (t : datetime) : Prop :=
  DT.valid t /\ microsecond t = 0 /\ DT.in_timestamp_range t.

(** A store as this program writes it: the file is absent and the frame
    empty, or the file is the header and lines with timestamps in the
    whole-second format, which read as [df]; and the timestamps of [df] are
    instants pandas holds in nanoseconds. *)
Definition holds (f : option file) (df : DataFrame) : Prop :=
  match f with
  | None => df = []
  | Some f => frame_of_file_in DT.Seconds f = Ok df
  end
  /\ Forall (fun r => DT.in_timestamp_range (timestamp r)) df.

(** The lines [save_to_csv] writes for a non-empty batch: the header
    when the file was absent, then one line per record. *)
Definition written_lines (f : option file) (records : list WeatherRecord)
  : list line :=
  (if f is Some _ then [] else [fieldnames]) ++ (csv_line <$> records).

(** The hours the gap detector considers, from one hour ago backwards. *)
Definition candidate_hours (now : datetime) (hours_back : Z)
  : list datetime :=
  (fun i => DT.floor_to_hour (DT.hours_before now i)) <$> seqZ 1 hours_back.

(** The window of [hours_back] hours before [now] lies within the
    calendar: its earliest hour is not before 0001-01-01T00:00. *)
Definition within_calendar (now : datetime) (hours_back : Z) : Prop :=
  hours_back <= 24 * (ordinal now - 1) + hour now.

(** Every subtraction of the gap detector's loop gives a date of the
    calendar. *)
Definition window_ok (now : datetime) (hours_back : Z) : Prop :=
  Forall (fun i => DT.in_calendar (DT.hours_before now i) = true)
    (seqZ 1 hours_back).

(** The row [read_csv] makes of the line of a record. *)
Definition raw_row (record : WeatherRecord) : row string string :=
  mk_row (DT.isoformat (timestamp record)) (num_str (temperature record))
    (num_str (humidity record)).

(** A record as a row of a loaded frame: its instant, and the texts of its
    two numbers. *)
Definition as_stored (record : WeatherRecord) : row datetime string :=
  mk_row (timestamp record) (num_str (temperature record))
    (num_str (humidity record)).

(** The record one target hour yields, if any: the answer has to arrive,
    to carry a [data] entry, and the [dt] of that entry has to be a time
    of the calendar. *)
Definition record_for (lat lon : num) (target_time : datetime)
  : option WeatherRecord :=
  match timemachine lat lon (DT.timestamp target_time) with
  | Ok response =>
      match extract_hourly_data response (DT.timestamp target_time) with
      | Ok record => record
      | Raise _ => None
      end
  | Raise _ => None
  end.

(** The records a batch of target hours yields, in the order asked. *)
Definition records_for (lat lon : num) (target_times : list datetime)
  : list WeatherRecord :=
  omap (record_for lat lon) target_times.

Definition weather_requests (lat lon : num) (target_times : list datetime)
  : list event :=
  (fun t => WeatherRequest lat lon (DT.timestamp t)) <$> target_times.

(** The record a run obtains for one hour of a city: the coordinates have
    to resolve and the hour has to yield a record. *)
Definition yield (info : city_info) (target_time : datetime)
  : option WeatherRecord :=
  match geocoding (query info) with
  | Ok (p :: _) => record_for (lat p) (lon p) target_time
  | _ => None
  end.

(** The weather endpoint answers with the hour it was asked for: the [dt]
    of the first [data] entry is the [dt] of the request. *)
Definition echoes : Prop :=
  forall lat lon ts response e es,
    timemachine lat lon ts = Ok response ->
    data response = Some (e :: es) ->
    dt e = ts.

(** The world after some more requests, the files untouched. *)
Definition after_requests (w : world) (evs : list event) : world :=
  {| files := files w; trace := trace w ++ evs |}.

(** An answer without a [data] entry: the key is missing or the array is
    empty. *)
Definition no_data (response : weather_data) : Prop :=
  data response = None \/ data response = Some [].

(** A datetime that is before another one, as instants. *)
Definition before (a b : datetime) : Prop := DT.to_micros a < DT.to_micros b.

Definition on_the_hour (t : datetime) : Prop :=
  minute t = 0 /\ second t = 0 /\ microsecond t = 0.

End Vocabulary.

(** ** [app.py]: where the dashboard reads the stores *)

Definition GITHUB_USERNAME : string := "FrancisTembo".
Definition GITHUB_REPO : string := "cuddly-broccoli".
Definition GITHUB_BRANCH : string := "main".

Definition GITHUB_RAW_BASE_URL : string :=
  "https://raw.githubusercontent.com/" +:+ GITHUB_USERNAME +:+ "/"
  +:+ GITHUB_REPO +:+ "/" +:+ GITHUB_BRANCH +:+ "/weather_data".

(** The dict literal, in its insertion order. *)
Definition CITY_FILES : list (string * string) :=
  [ ("Cape Town", "cape_town_weather.csv");
    ("Kigali", "kigali_weather.csv");
    ("Kampala", "kampala_weather.csv") ]%string.

(** The URL [load_data_from_github] requests for a file name. *)
Definition github_url (filename : string) : string :=
  GITHUB_RAW_BASE_URL +:+ "/" +:+ filename.

(** The root of the repository's files on the branch the dashboard reads. *)
Definition repository_root : string :=
  "https://raw.githubusercontent.com/FrancisTembo/cuddly-broccoli/main".

(** ** Vocabulary of the further properties *)

Section FurtherVocabulary.
Context {Nm : Numbers}.

(** The paths of the stores of the configured cities. *)
Definition store_paths : list string :=
  (fun c => store_path c.2) <$> CITIES.

(** Files only grow at their end, and only stores change: every file that
    was there is still there with its lines first, and a path that is no
    store holds what it held. *)
Definition append_only (fs fs' : gmap string file) : Prop :=
  (forall p (f : file), fs !! p = Some f ->
     exists more, fs' !! p = Some (f ++ more))
  /\ (forall p, p ∉ store_paths -> fs' !! p = fs !! p).

(** Later entries are earlier hours. *)
Definition descending (l : list datetime) : Prop :=
  forall i j a b, l !! i = Some a -> l !! j = Some b -> (i < j)%nat ->
    before b a.

End FurtherVocabulary.

(** ** More concrete worlds, for the examples *)

Module MoreExamples.

(** The line of the record of 21 degrees and 60 percent at [h] o'clock. *)
Definition line_at (h : Z) : line :=
  @csv_line Examples.decimal_numbers (Examples.reading (Examples.at_hour h)).

Definition kigali_csv : string := "weather_data/kigali_weather.csv".
Definition kampala_csv : string := "weather_data/kampala_weather.csv".

(** Cape Town's store holds 09:00, 08:00 and 07:00, the two other stores
    hold 09:00. *)
Definition stocked_world : @world Examples.decimal_numbers :=
  @mk_world Examples.decimal_numbers
    (<[Examples.cape_town_csv := [fieldnames; line_at 9; line_at 8; line_at 7]]>
       (<[kigali_csv := [fieldnames; line_at 9]]>
          (<[kampala_csv := [fieldnames; line_at 9]]> ∅)))
    [].

(** Cape Town's file is there, without a line. *)
Definition touched_world : @world Examples.decimal_numbers :=
  @mk_world Examples.decimal_numbers (<[Examples.cape_town_csv := []]> ∅) [].

(** Cape Town's store holds 09:00. *)
Definition one_hour_world : @world Examples.decimal_numbers :=
  @mk_world Examples.decimal_numbers
    (<[Examples.cape_town_csv := [fieldnames; line_at 9]]> ∅) [].


(** No place is found for any query. *)
Definition lost_upstream : @Upstream Examples.decimal_numbers :=
  {| geocoding := fun _ => Ok [];
     timemachine := fun _ _ ts => Ok (Examples.observation ts) |}.

End MoreExamples.

(** * Properties *)

(** ** Datetime arithmetic *)

Section DatetimeFacts.

Lemma seconds_split (s : Z) :
  s / 3600 * 3600 + s mod 3600 / 60 * 60 + s mod 3600 mod 60 = s.
Proof.
  pose proof (Z.div_mod s 3600 ltac:(lia)).
  pose proof (Z.div_mod (s mod 3600) 60 ltac:(lia)). lia.
Qed.

(** Subtracting hours moves the instant by that many hours. *)
Lemma to_micros_hours_before (t : datetime) (i : Z) :
  DT.to_micros (DT.hours_before t i) = DT.to_micros t - i * 3600000000.
Proof.
  assert (Hs : DT.seconds_of_day (DT.hours_before t i)
               = (DT.seconds_of_day t - i * 3600) mod 86400)
    by apply seconds_split.
  unfold DT.to_micros. rewrite Hs. simpl.
  pose proof (Z.div_mod (DT.seconds_of_day t - i * 3600) 86400 ltac:(lia)).
  lia.
Qed.

Lemma hours_before_fields (t : datetime) (i : Z) :
  0 <= hour (DT.hours_before t i) < 24
  /\ 0 <= minute (DT.hours_before t i) < 60
  /\ 0 <= second (DT.hours_before t i) < 60.
Proof.
  unfold DT.hours_before; simpl.
  set (s := (DT.seconds_of_day t - i * 3600) mod 86400).
  assert (0 <= s < 86400) by (apply Z.mod_pos_bound; lia).
  pose proof (Z.mod_pos_bound s 3600 ltac:(lia)).
  pose proof (Z.mod_pos_bound (s mod 3600) 60 ltac:(lia)).
  repeat split; try lia.
  - apply Z.div_pos; lia.
  - apply Z.div_lt_upper_bound; lia.
  - apply Z.div_pos; lia.
  - apply Z.div_lt_upper_bound; lia.
Qed.

(** The hour [i] hours before [now], on the fields: the hour of day moves
    by [i] and carries into the day; minutes and seconds are dropped. *)
Lemma floor_hours_before (now : datetime) (i : Z) :
  DT.valid now ->
  DT.floor_to_hour (DT.hours_before now i)
  = mk_datetime (ordinal now + (hour now - i) / 24) ((hour now - i) mod 24)
      0 0 0.
Proof.
  intros (_ & Hh & Hm & Hs & _).
  unfold DT.floor_to_hour, DT.hours_before, DT.seconds_of_day; simpl.
  set (r := minute now * 60 + second now).
  assert (Hr : 0 <= r < 3600) by (unfold r; lia).
  replace (hour now * 3600 + minute now * 60 + second now - i * 3600)
    with ((hour now - i) * 3600 + r) by (unfold r; lia).
  set (k := hour now - i).
  pose proof (Z.div_mod k 24 ltac:(lia)) as Hk.
  pose proof (Z.mod_pos_bound k 24 ltac:(lia)) as Hkb.
  assert (Hq : (k * 3600 + r) / 86400 = k / 24).
  { symmetry. apply (Z.div_unique _ _ _ ((k mod 24) * 3600 + r)); lia. }
  assert (Hm' : (k * 3600 + r) mod 86400 = (k mod 24) * 3600 + r).
  { symmetry. apply (Z.mod_unique _ _ (k / 24)); lia. }
  rewrite Hq, Hm'. f_equal.
  symmetry. apply (Z.div_unique _ _ _ r); lia.
Qed.

Lemma to_micros_floor_hours_before (now : datetime) (i : Z) :
  DT.valid now ->
  DT.to_micros (DT.floor_to_hour (DT.hours_before now i))
  = DT.to_micros (DT.floor_to_hour now) - i * 3600000000.
Proof.
  intros Hv. rewrite floor_hours_before by done.
  unfold DT.to_micros, DT.seconds_of_day, DT.floor_to_hour; simpl.
  pose proof (Z.div_mod (hour now - i) 24 ltac:(lia)). lia.
Qed.

(** On valid datetimes the fields and the instant determine each other. *)
Lemma to_micros_inj (a b : datetime) :
  DT.valid a -> DT.valid b -> DT.to_micros a = DT.to_micros b -> a = b.
Proof.
  destruct a as [oa ha ma sa ua], b as [ob hb mb sb ub].
  unfold DT.valid, DT.to_micros, DT.seconds_of_day; simpl.
  intros (_ & ? & ? & ? & ?) (_ & ? & ? & ? & ?) Heq.
  assert (oa = ob) by lia. subst.
  assert (ha = hb) by lia. subst.
  assert (ma = mb) by lia. subst.
  assert (sa = sb) by lia. subst.
  f_equal. lia.
Qed.

(** A datetime on a whole second is the instant of its Unix time. *)
Lemma of_unix_timestamp (t : datetime) :
  0 <= hour t < 24 -> 0 <= minute t < 60 -> 0 <= second t < 60 ->
  microsecond t = 0 ->
  DT.of_unix (DT.timestamp t) = t.
Proof.
  destruct t as [o h m s u]; simpl. intros Hh Hm Hs ->.
  unfold DT.timestamp, DT.to_micros, DT.seconds_of_day; simpl.
  rewrite Z.add_0_r, Z.quot_mul by lia.
  set (sod := h * 3600 + m * 60 + s).
  assert (Hsod : 0 <= sod < 86400) by (unfold sod; lia).
  unfold DT.of_unix.
  assert (Hq : ((o - DT.EPOCH_ORDINAL) * 86400 + sod) / 86400
               = o - DT.EPOCH_ORDINAL).
  { symmetry. apply (Z.div_unique _ _ _ sod); lia. }
  assert (Hr : ((o - DT.EPOCH_ORDINAL) * 86400 + sod) mod 86400 = sod).
  { symmetry. apply (Z.mod_unique _ _ (o - DT.EPOCH_ORDINAL)); lia. }
  rewrite Hq, Hr.
  assert (Hh' : sod / 3600 = h).
  { symmetry. apply (Z.div_unique _ _ _ (m * 60 + s)); unfold sod; lia. }
  assert (Hm' : sod mod 3600 = m * 60 + s).
  { symmetry. apply (Z.mod_unique _ _ h); unfold sod; lia. }
  rewrite Hh', Hm'.
  assert (Hm'' : (m * 60 + s) / 60 = m).
  { symmetry. apply (Z.div_unique _ _ _ s); lia. }
  assert (Hs' : (m * 60 + s) mod 60 = s).
  { symmetry. apply (Z.mod_unique _ _ m); lia. }
  rewrite Hm'', Hs'. f_equal. lia.
Qed.

Lemma in_calendar_true (t : datetime) :
  DT.in_calendar t = true <-> 1 <= ordinal t <= Calendar.MAXORDINAL.
Proof.
  unfold DT.in_calendar. rewrite andb_true_iff, Z.ltb_lt, Z.leb_le. lia.
Qed.

Lemma fromtimestamp_of_unix (ts : Z) :
  DT.in_calendar (DT.of_unix ts) = true ->
  DT.fromtimestamp ts = Ok (DT.of_unix ts).
Proof. intros Hc. unfold DT.fromtimestamp. cbv zeta. by rewrite Hc. Qed.

(** The Unix times [datetime.fromtimestamp] takes: those of the years
    1..9999. *)
Lemma of_unix_in_calendar (ts : Z) :
  DT.in_calendar (DT.of_unix ts) = true
  <-> -62135596800 <= ts <= 253402300799.
Proof.
  rewrite in_calendar_true. unfold DT.of_unix, DT.EPOCH_ORDINAL,
    Calendar.MAXORDINAL. simpl.
  pose proof (Z.div_mod ts 86400 ltac:(lia)).
  pose proof (Z.mod_pos_bound ts 86400 ltac:(lia)). lia.
Qed.

(** The Unix time of a datetime on a whole second is read back as that
    datetime. *)
Lemma fromtimestamp_timestamp (t : datetime) :
  DT.valid t -> microsecond t = 0 ->
  DT.fromtimestamp (DT.timestamp t) = Ok t.
Proof.
  intros (Ho & Hh & Hm & Hs & _) Hu.
  assert (He : DT.of_unix (DT.timestamp t) = t)
    by (by apply of_unix_timestamp).
  rewrite fromtimestamp_of_unix; rewrite He; [done|].
  by apply in_calendar_true.
Qed.

Lemma ordinal_hours_before (now : datetime) (i : Z) :
  DT.valid now ->
  ordinal (DT.hours_before now i) = ordinal now + (hour now - i) / 24.
Proof.
  intros Hv.
  change (ordinal (DT.hours_before now i))
    with (ordinal (DT.floor_to_hour (DT.hours_before now i))).
  by rewrite floor_hours_before.
Qed.

(** An hour of the window is a date of the calendar exactly when it is not
    before the first hour of the year 1. *)
Lemma hours_before_in_calendar (now : datetime) (i : Z) :
  DT.valid now -> 1 <= i ->
  (DT.in_calendar (DT.hours_before now i) = true
   <-> i <= 24 * (ordinal now - 1) + hour now).
Proof.
  intros Hv Hi. rewrite in_calendar_true, ordinal_hours_before by done.
  destruct Hv as (Ho & Hh & _).
  assert (Hup : (hour now - i) / 24 <= 0).
  { apply Z.lt_succ_r, Z.div_lt_upper_bound; lia. }
  pose proof (Z.div_mod (hour now - i) 24 ltac:(lia)) as Hdm.
  pose proof (Z.mod_pos_bound (hour now - i) 24 ltac:(lia)) as Hmb.
  lia.
Qed.

(** The window of the gap detector stays in the calendar exactly when its
    length is within the bound. *)
Lemma window_ok_within (now : datetime) (hours_back : Z) :
  DT.valid now ->
  (window_ok now hours_back <-> within_calendar now hours_back).
Proof.
  intros Hv. unfold window_ok, within_calendar. rewrite Forall_forall.
  split.
  - intros Hall. destruct (decide (1 <= hours_back)) as [Hb | Hb].
    + apply (hours_before_in_calendar now hours_back Hv Hb).
      apply Hall. apply elem_of_seqZ. lia.
    + destruct Hv as (Ho & Hh & _). lia.
  - intros Hb i Hi. apply elem_of_seqZ in Hi.
    apply hours_before_in_calendar; (done || lia).
Qed.

(** The hours the gap detector considers are valid datetimes on the hour,
    as long as the window stays within the calendar. *)
Lemma floor_hours_before_valid (now : datetime) (i hours_back : Z) :
  DT.valid now ->
  1 <= i <= hours_back ->
  within_calendar now hours_back ->
  DT.valid (DT.floor_to_hour (DT.hours_before now i)).
Proof.
  intros Hv Hi Hb.
  assert (Hc : DT.in_calendar (DT.hours_before now i) = true).
  { apply hours_before_in_calendar; [done|lia|]. unfold within_calendar in Hb.
    lia. }
  apply in_calendar_true in Hc.
  pose proof (hours_before_fields now i) as (Hh & _).
  unfold DT.valid, DT.floor_to_hour.
  cbn [ordinal hour minute second microsecond]. lia.
Qed.

End DatetimeFacts.

(** ** The calendar: [ord2ymd] and [ymd2ord] are inverse *)

Section CalendarFacts.
Import Calendar.

(** Every day of one 400-year cycle, by computation. *)
Lemma cycle_days_ok : all_days cycle_day_ok 0 (Z.to_nat 146097) = true.
Proof. vm_compute. reflexivity. Qed.

Lemma all_days_at (check : Z -> bool) (n : nat) (lo k : Z) :
  all_days check lo n = true ->
  lo <= k < lo + Z.of_nat n -> check k = true.
Proof.
  revert lo. induction n as [|n IH]; intros lo Hall Hk; [lia|].
  simpl in Hall. destruct (check lo) eqn:Hlo; [|done].
  destruct (decide (k = lo)) as [-> | Hne]; [done|].
  apply (IH (lo + 1)); [done|lia].
Qed.

Lemma cycle_day_ok_at (r : Z) : 0 <= r < 146097 -> cycle_day_ok r = true.
Proof.
  intros Hr. apply (all_days_at _ _ _ _ cycle_days_ok).
  rewrite Z2Nat.id; lia.
Qed.

Lemma ord2ymd_cycle_shift (base r : Z) :
  ord2ymd_cycle base r
  = let '(y, m, d) := ord2ymd_cycle 0 r in (base + y, m, d).
Proof.
  unfold ord2ymd_cycle. cbv zeta.
  repeat match goal with
         | |- context [if ?b then _ else _] => destruct b
         end; f_equal; f_equal; lia.
Qed.

Lemma is_leap_shift (q y : Z) : is_leap (q * 400 + y) = is_leap y.
Proof.
  unfold is_leap.
  replace ((q * 400 + y) mod 4) with (y mod 4)
    by (replace (q * 400 + y) with (y + (q * 100) * 4) by lia;
        by rewrite Z_mod_plus_full).
  replace ((q * 400 + y) mod 100) with (y mod 100)
    by (replace (q * 400 + y) with (y + (q * 4) * 100) by lia;
        by rewrite Z_mod_plus_full).
  replace ((q * 400 + y) mod 400) with (y mod 400)
    by (replace (q * 400 + y) with (y + q * 400) by lia;
        by rewrite Z_mod_plus_full).
  done.
Qed.

Lemma days_before_year_shift (q y : Z) :
  days_before_year (q * 400 + y) = q * 146097 + days_before_year y.
Proof.
  unfold days_before_year. cbv zeta.
  replace ((q * 400 + y - 1) / 4) with ((y - 1) / 4 + q * 100)
    by (replace (q * 400 + y - 1) with (y - 1 + (q * 100) * 4) by lia;
        by rewrite Z_div_plus_full).
  replace ((q * 400 + y - 1) / 100) with ((y - 1) / 100 + q * 4)
    by (replace (q * 400 + y - 1) with (y - 1 + (q * 4) * 100) by lia;
        by rewrite Z_div_plus_full).
  replace ((q * 400 + y - 1) / 400) with ((y - 1) / 400 + q)
    by (replace (q * 400 + y - 1) with (y - 1 + q * 400) by lia;
        by rewrite Z_div_plus_full).
  lia.
Qed.

Lemma ymd2ord_shift (q y m d : Z) :
  ymd2ord (q * 400 + y) m d = q * 146097 + ymd2ord y m d.
Proof.
  unfold ymd2ord, days_before_month.
  rewrite days_before_year_shift, is_leap_shift. lia.
Qed.

(** The date of an ordinal of the years 1..9999 is a valid date, and its
    ordinal is the one we started from. *)
Lemma ord2ymd_inverse (n : Z) :
  1 <= n <= MAXORDINAL ->
  exists y m d,
    ord2ymd n = (y, m, d)
    /\ valid_ymd y m d = true
    /\ ymd2ord y m d = n.
Proof.
  intros Hn. unfold MAXORDINAL in Hn. unfold ord2ymd. cbv zeta.
  unfold DI400Y.
  set (q := (n - 1) / 146097). set (r := (n - 1) mod 146097).
  pose proof (Z.div_mod (n - 1) 146097 ltac:(lia)) as Hdm.
  pose proof (Z.mod_pos_bound (n - 1) 146097 ltac:(lia)) as Hr.
  fold q r in Hdm, Hr.
  assert (Hq : 0 <= q <= 24).
  { split; [apply Z.div_pos; lia|].
    apply Z.lt_succ_r, Z.div_lt_upper_bound; lia. }
  rewrite ord2ymd_cycle_shift.
  pose proof (cycle_day_ok_at r Hr) as Hok. unfold cycle_day_ok in Hok.
  destruct (ord2ymd_cycle 0 r) as [[y m] d].
  rewrite !andb_true_iff, orb_true_iff in Hok.
  destruct Hok as (((((((Hy1 & Hy2) & Hy3) & Hm1) & Hm2) & Hd1) & Hd2) & Ho).
  exists (q * 400 + y), m, d. split; [done|].
  assert (Hy : q * 400 + y <= 9999).
  { destruct Hy3 as [Hy3 | Hy3]; lia. }
  split.
  - unfold valid_ymd, MINYEAR, MAXYEAR, days_in_month.
    rewrite is_leap_shift. fold (days_in_month y m).
    rewrite !andb_true_iff. repeat split; try done; lia.
  - rewrite ymd2ord_shift. lia.
Qed.


Lemma div_step (k y : Z) :
  0 < k -> y / k = (y - 1) / k + (if y mod k =? 0 then 1 else 0).
Proof.
  intros Hk.
  pose proof (Z.div_mod y k ltac:(lia)) as H1.
  pose proof (Z.mod_pos_bound y k Hk) as H2.
  destruct (Z.eqb_spec (y mod k) 0) as [H0 | H0].
  - symmetry. apply (Z.div_unique _ _ _ 0); [lia|].
    assert (Hq : (y - 1) / k = y / k - 1).
    { symmetry. apply (Z.div_unique _ _ _ (k - 1)); [lia|]. nia. }
    rewrite Hq. nia.
  - rewrite Z.add_0_r. apply (Z.div_unique _ _ _ (y mod k - 1)); [lia|].
    lia.
Qed.

Lemma mod_4_of_100 (y : Z) : y mod 100 = 0 -> y mod 4 = 0.
Proof.
  intros H. pose proof (Z.div_mod y 100 ltac:(lia)) as Hd.
  replace y with (0 + (y / 100 * 25) * 4) by lia.
  by rewrite Z_mod_plus_full.
Qed.

Lemma mod_100_of_400 (y : Z) : y mod 400 = 0 -> y mod 100 = 0.
Proof.
  intros H. pose proof (Z.div_mod y 400 ltac:(lia)) as Hd.
  replace y with (0 + (y / 400 * 4) * 100) by lia.
  by rewrite Z_mod_plus_full.
Qed.

(** A year has 365 days, and one more when it is a leap year. *)
Lemma days_before_year_succ (y : Z) :
  days_before_year (y + 1)
  = days_before_year y + 365 + (if is_leap y then 1 else 0).
Proof.
  unfold days_before_year, is_leap. cbv zeta.
  replace (y + 1 - 1) with y by lia.
  rewrite (div_step 4 y), (div_step 100 y), (div_step 400 y) by lia.
  pose proof (mod_4_of_100 y). pose proof (mod_100_of_400 y).
  destruct (Z.eqb_spec (y mod 4) 0), (Z.eqb_spec (y mod 100) 0),
    (Z.eqb_spec (y mod 400) 0); simpl; lia.
Qed.

Lemma days_before_year_mono (y : Z) (n : nat) :
  days_before_year y <= days_before_year (y + Z.of_nat n).
Proof.
  induction n as [|n IH].
  - by rewrite Z.add_0_r.
  - replace (y + Z.of_nat (S n)) with (y + Z.of_nat n + 1) by lia.
    rewrite days_before_year_succ. destruct (is_leap _); lia.
Qed.

Lemma days_before_year_le (y y' : Z) :
  y <= y' -> days_before_year y <= days_before_year y'.
Proof.
  intros Hle. replace y' with (y + Z.of_nat (Z.to_nat (y' - y))) by lia.
  apply days_before_year_mono.
Qed.

(** The day of a valid date within its year. *)
Lemma day_of_year_bounds (y m d : Z) :
  1 <= m <= 12 -> 1 <= d <= days_in_month y m ->
  1 <= days_before_month y m + d <= 365 + (if is_leap y then 1 else 0).
Proof.
  intros Hm. unfold days_in_month, days_before_month, table.
  assert (Hc : m = 1 \/ m = 2 \/ m = 3 \/ m = 4 \/ m = 5 \/ m = 6 \/ m = 7
               \/ m = 8 \/ m = 9 \/ m = 10 \/ m = 11 \/ m = 12) by lia.
  destruct (is_leap y);
    repeat (destruct Hc as [-> | Hc]; [simpl; lia|]); subst; simpl; lia.
Qed.

(** The ordinal of a valid date is an ordinal of the calendar. *)
Lemma ymd2ord_in_calendar (y m d : Z) :
  valid_ymd y m d = true -> 1 <= ymd2ord y m d <= MAXORDINAL.
Proof.
  unfold valid_ymd, MINYEAR, MAXYEAR. rewrite !andb_true_iff.
  rewrite !Z.leb_le.
  intros (((((Hy1 & Hy2) & Hm1) & Hm2) & Hd1) & Hd2).
  pose proof (day_of_year_bounds y m d ltac:(lia) ltac:(lia)) as Hd.
  pose proof (days_before_year_le 1 y Hy1) as Hlo.
  pose proof (days_before_year_le (y + 1) 10000 ltac:(lia)) as Hhi.
  rewrite days_before_year_succ in Hhi.
  change (days_before_year 1) with 0 in Hlo.
  change (days_before_year 10000) with 3652059 in Hhi.
  unfold ymd2ord, MAXORDINAL. lia.
Qed.

End CalendarFacts.

(** ** [isoformat] and its parser are inverse *)

Section IsoformatFacts.

Lemma string_app_nil (b : string) : ("" +:+ b = b)%string.
Proof. reflexivity. Qed.

Lemma string_app_cons (x : ascii) (a b : string) :
  (String x a +:+ b = String x (a +:+ b))%string.
Proof. reflexivity. Qed.

Lemma string_app_assoc (a b c : string) :
  ((a +:+ b) +:+ c = a +:+ (b +:+ c))%string.
Proof.
  induction a as [|x a IH]; [done|]. by rewrite !string_app_cons, IH.
Qed.

Lemma digit_val_char (d : Z) :
  0 <= d <= 9 -> DT.digit_val (DT.digit_char d) = Some d.
Proof.
  intros Hd.
  assert (Hcases : d = 0 \/ d = 1 \/ d = 2 \/ d = 3 \/ d = 4 \/ d = 5
                   \/ d = 6 \/ d = 7 \/ d = 8 \/ d = 9) by lia.
  repeat (destruct Hcases as [-> | Hcases]; [reflexivity|]).
  by subst.
Qed.

Lemma read_digits_cons (w : nat) (acc : Z) (c : ascii) (s : string) :
  DT.read_digits (S w) acc (String c s)
  = DT.digit_val c ≫= fun d => DT.read_digits w (10 * acc + d) s.
Proof. reflexivity. Qed.

(** Reading one more digit, seen from the end. *)
Lemma read_digits_succ (w : nat) (acc : Z) (s : string) :
  DT.read_digits (S w) acc s
  = match DT.read_digits w acc s with
    | Some (a, String c s') =>
        match DT.digit_val c with
        | Some d => Some (10 * a + d, s')
        | None => None
        end
    | _ => None
    end.
Proof.
  revert acc s. induction w as [|w IH]; intros acc s.
  - simpl. destruct s as [|c s]; [done|].
    by destruct (DT.digit_val c).
  - destruct s as [|c s]; [done|].
    rewrite (read_digits_cons (S w)), (read_digits_cons w).
    destruct (DT.digit_val c) as [d|]; simpl; [|done].
    apply IH.
Qed.

Lemma read_digits_zero_pad (w : nat) (n acc : Z) (rest : string) :
  0 <= n < 10 ^ Z.of_nat w ->
  DT.read_digits w acc (DT.zero_pad w n +:+ rest)
  = Some (acc * 10 ^ Z.of_nat w + n, rest).
Proof.
  revert n rest. induction w as [|w IH]; intros n rest Hn.
  - simpl in *. do 2 f_equal. lia.
  - rewrite read_digits_succ.
    change (DT.zero_pad (S w) n)
      with (DT.zero_pad w (n / 10)
            +:+ String (DT.digit_char (n mod 10)) "")%string.
    rewrite string_app_assoc, string_app_cons, string_app_nil.
    replace (Z.of_nat (S w)) with (Z.of_nat w + 1) in * by lia.
    rewrite Z.pow_add_r, Z.pow_1_r in * by lia.
    pose proof (Z.div_mod n 10 ltac:(lia)).
    pose proof (Z.mod_pos_bound n 10 ltac:(lia)).
    rewrite IH.
    2:{ split; [apply Z.div_pos; lia|].
        apply Z.div_lt_upper_bound; lia. }
    rewrite digit_val_char by lia. do 2 f_equal. lia.
Qed.

Lemma read_field (w : nat) (bound n : Z) (rest : string) :
  10 ^ Z.of_nat w = bound ->
  0 <= n < bound ->
  DT.read_digits w 0 (DT.zero_pad w n +:+ rest) = Some (n, rest).
Proof.
  intros <- Hn. rewrite (read_digits_zero_pad w n 0 rest Hn).
  by rewrite Z.mul_0_l, Z.add_0_l.
Qed.

Lemma read2 (n : Z) (rest : string) :
  0 <= n < 100 ->
  DT.read_digits 2 0 (DT.zero_pad 2 n +:+ rest) = Some (n, rest).
Proof. by apply read_field. Qed.

Lemma read4 (n : Z) (rest : string) :
  0 <= n < 10000 ->
  DT.read_digits 4 0 (DT.zero_pad 4 n +:+ rest) = Some (n, rest).
Proof. by apply read_field. Qed.

Lemma read6 (n : Z) (rest : string) :
  0 <= n < 1000000 ->
  DT.read_digits 6 0 (DT.zero_pad 6 n +:+ rest) = Some (n, rest).
Proof. by apply read_field. Qed.

Lemma expect_cons (c : ascii) (s : string) :
  DT.expect c (String c s) = Some s.
Proof. unfold DT.expect. by rewrite decide_True. Qed.

Lemma days_in_month_le (y m : Z) :
  1 <= m <= 12 -> Calendar.days_in_month y m <= 31.
Proof.
  intros Hm. unfold Calendar.days_in_month, Calendar.table.
  destruct ((m =? 2) && Calendar.is_leap y); [lia|].
  assert (Hc : m = 1 \/ m = 2 \/ m = 3 \/ m = 4 \/ m = 5 \/ m = 6 \/ m = 7
               \/ m = 8 \/ m = 9 \/ m = 10 \/ m = 11 \/ m = 12) by lia.
  repeat (destruct Hc as [-> | Hc]; [by vm_compute|]).
  subst. by vm_compute.
Qed.


(** Reading the ISO text of a valid datetime on a whole second in the
    whole-second format gives the datetime back. *)
Lemma strptime_isoformat (t : datetime) :
  DT.valid t -> microsecond t = 0 ->
  DT.strptime DT.Seconds (DT.isoformat t) = Some t.
Proof.
  intros (Ho & Hh & Hm & Hs & Hu) Hus.
  destruct (ord2ymd_inverse (ordinal t) Ho) as (y & m & d & Hymd & Hv & Hord).
  unfold DT.isoformat. rewrite Hymd, Hus. change (0 =? 0) with true.
  cbv iota. rewrite (string_app_nil "+00:00").
  pose proof Hv as Hv'. unfold Calendar.valid_ymd in Hv'.
  rewrite !andb_true_iff in Hv'.
  destruct Hv' as (((((Hy1 & Hy2) & Hm1) & Hm2) & Hd1) & Hd2).
  unfold Calendar.MINYEAR, Calendar.MAXYEAR in *.
  pose proof (days_in_month_le y m ltac:(lia)) as Hdim.
  unfold DT.strptime.
  rewrite read4 by lia. cbn [mbind option_bind].
  rewrite string_app_cons, string_app_nil, expect_cons.
  cbn [mbind option_bind].
  rewrite read2 by lia. cbn [mbind option_bind].
  rewrite string_app_cons, string_app_nil, expect_cons.
  cbn [mbind option_bind].
  rewrite read2 by lia. cbn [mbind option_bind].
  rewrite string_app_cons, string_app_nil, expect_cons.
  cbn [mbind option_bind].
  rewrite read2 by lia. cbn [mbind option_bind].
  rewrite string_app_cons, string_app_nil, expect_cons.
  cbn [mbind option_bind].
  rewrite read2 by lia. cbn [mbind option_bind].
  rewrite string_app_cons, string_app_nil, expect_cons.
  cbn [mbind option_bind].
  rewrite read2 by lia. cbn [mbind option_bind DT.read_fraction].
  rewrite decide_True by done. rewrite Hv.
  replace (hour t <? 24) with true by (symmetry; apply Z.ltb_lt; lia).
  replace (minute t <? 60) with true by (symmetry; apply Z.ltb_lt; lia).
  replace (second t <? 60) with true by (symmetry; apply Z.ltb_lt; lia).
  cbn [andb]. unfold DT.of_fields. rewrite Hord, <- Hus. by destruct t.
Qed.

(** What the parser accepts is a date of the calendar. *)
Lemma strptime_in_calendar (fmt : DT.iso_format) (s : string) (t : datetime) :
  DT.strptime fmt s = Some t -> DT.in_calendar t = true.
Proof.
  unfold DT.strptime. intros H.
  repeat match type of H with
         | (?x ≫= _) = Some _ =>
             destruct x as [[? ?]|]; cbn [mbind option_bind] in H;
             [|discriminate H]
         | (?x ≫= _) = Some _ =>
             destruct x as [?|]; cbn [mbind option_bind] in H;
             [|discriminate H]
         end.
  destruct (decide _); [|discriminate H].
  destruct (Calendar.valid_ymd _ _ _) eqn:Hv; [|discriminate H].
  destruct (_ <? 24), (_ <? 60), (_ <? 60); try discriminate H.
  injection H as <-. apply in_calendar_true. simpl.
  by apply ymd2ord_in_calendar.
Qed.

(** A cell in the whole-second format is guessed to be in that format. *)
Lemma guess_datetime_format_seconds (s : string) (t : datetime) :
  DT.strptime DT.Seconds s = Some t ->
  DT.guess_datetime_format s = Some DT.Seconds.
Proof. intros H. unfold DT.guess_datetime_format. by rewrite H. Qed.

End IsoformatFacts.

(** ** The monad *)

Ltac unfold_M :=
  unfold mbind, M_bind, mret, M_ret, lift, raise, try_except, emit,
    path_exists, read_file, append_file in *.

(** ** The store *)

Section StoreFacts.
Context {Nm : Numbers}.

Lemma get_csv_path_ok (city_name : string) (info : city_info) (w : world) :
  getitem CITIES city_name = Ok info ->
  get_csv_path city_name w = (Ok (store_path info), w).
Proof. intros Hc. unfold get_csv_path. unfold_M. by rewrite Hc. Qed.

(** Loading never fails for a configured city, and leaves the world as it
    is. *)
Lemma load_existing_data_loaded (city_name : string) (info : city_info)
    (w : world) :
  getitem CITIES city_name = Ok info ->
  load_existing_data city_name w
  = (Ok (loaded (files w !! store_path info)), w).
Proof.
  intros Hc. unfold load_existing_data.
  unfold mbind at 1, M_bind. rewrite (get_csv_path_ok _ _ _ Hc).
  unfold read_csv. unfold_M. unfold loaded, frame_of_file. simpl.
  destruct (files w !! store_path info) as [f|] eqn:Hf; simpl; [|done].
  rewrite Hf; simpl.
  destruct f as [|header body]; [done|].
  destruct (decide (header = fieldnames)); [|done].
  destruct (parse_lines body) as [raw|err]; [|done].
  by destruct (to_datetime raw).
Qed.

Lemma save_to_csv_written (city_name : string) (info : city_info)
    (records : list WeatherRecord) (w : world) :
  getitem CITIES city_name = Ok info ->
  records <> [] ->
  let path := store_path info in
  let lines := written_lines (files w !! path) records in
  save_to_csv city_name records w
  = (Ok tt,
     {| files := <[path := default ([] : file) (files w !! path) ++ lines]>
                   (files w);
        trace := trace w ++ [FileAppend path lines] |}).
Proof.
  intros Hc Hne path lines. unfold save_to_csv.
  destruct records as [|r records]; [done|].
  unfold mbind at 1, M_bind. rewrite (get_csv_path_ok _ _ _ Hc).
  unfold_M. simpl. subst lines path. unfold written_lines.
  by destruct (files w !! store_path info).
Qed.

(** C10.  Appending an empty sequence of records is a no-op: whatever the
    city and the state of the files, [save_to_csv] returns at once, the
    files are as before (none created, none extended, no header written)
    and the file system was not touched at all (the trace is as before). *)
Theorem save_to_csv_empty_noop (city_name : string) (w : world) :
  save_to_csv city_name [] w = (Ok tt, w)
  /\ files (save_to_csv city_name [] w).2 = files w
  /\ trace (save_to_csv city_name [] w).2 = trace w.
Proof. by repeat split. Qed.

(** C9.  When the file of a city's store does not exist, loading gives
    the empty sequence, and appending a non-empty sequence of records
    creates the file with the header line first and one line per record
    after it; when the file exists, appending adds the lines of the
    records after the lines the file has, and no header. *)
Theorem absent_file_load_and_append (city_name : string) (info : city_info)
    (records : list WeatherRecord) (w : world) :
  getitem CITIES city_name = Ok info ->
  records <> [] ->
  let path := store_path info in
  let w' := (save_to_csv city_name records w).2 in
  (save_to_csv city_name records w).1 = Ok tt
  /\ (files w !! path = None ->
      load_existing_data city_name w = (Ok [], w)
      /\ files w' !! path = Some (fieldnames :: (csv_line <$> records)))
  /\ (forall f : file, files w !! path = Some f ->
      files w' !! path = Some (f ++ (csv_line <$> records))).
Proof.
  intros Hc Hne path w'. subst w'.
  rewrite (save_to_csv_written _ _ _ _ Hc Hne). simpl.
  fold path. rewrite lookup_insert_eq.
  split; [done|]. split.
  - intros Hf. rewrite (load_existing_data_loaded _ _ _ Hc).
    fold path. by rewrite Hf.
  - intros f Hf. by rewrite Hf.
Qed.

(** Appending touches no other file. *)
Lemma save_to_csv_other_files (city_name : string) (info : city_info)
    (records : list WeatherRecord) (w : world) (p : string) :
  getitem CITIES city_name = Ok info ->
  p <> store_path info ->
  files (save_to_csv city_name records w).2 !! p = files w !! p.
Proof.
  intros Hc Hp. destruct records as [|r records]; [done|].
  rewrite (save_to_csv_written _ _ _ _ Hc) by done. simpl.
  by rewrite lookup_insert_ne.
Qed.

End StoreFacts.

(** ** The existence check *)

Section ExistenceCheck.

(** With a datetime the check never raises; it is the membership of the
    datetime among the timestamps of the frame. *)
Lemma data_exists_datetime (df : DataFrame) (t : datetime) :
  data_exists df (Datetime t) = Ok (bool_decide (t ∈ timestamp <$> df)).
Proof.
  unfold data_exists. destruct df as [|r df].
  { reflexivity. }
  cbv zeta. f_equal. apply bool_decide_ext.
  assert (Hne : forall l : DataFrame,
             (0 < length l)%nat <-> exists x, x ∈ l).
  { intros [|x l]; simpl; split; try lia.
    - intros [x Hx]. by apply elem_of_nil in Hx.
    - intros _. exists x. left. }
  rewrite Hne. setoid_rewrite list_elem_of_filter.
  rewrite list_elem_of_fmap.
  split; intros (x & Hx1 & Hx2); exists x; by split.
Qed.

Lemma data_exists_true (df : DataFrame) (t : datetime) :
  data_exists df (Datetime t) = Ok true <-> t ∈ timestamp <$> df.
Proof.
  rewrite data_exists_datetime. split.
  - intros [= H]. by apply bool_decide_eq_true in H.
  - intros H. f_equal. by apply bool_decide_eq_true.
Qed.

Lemma data_exists_false (df : DataFrame) (t : datetime) :
  data_exists df (Datetime t) = Ok false <-> t ∉ timestamp <$> df.
Proof.
  rewrite data_exists_datetime. split.
  - intros [= H]. by apply bool_decide_eq_false in H.
  - intros H. f_equal. by apply bool_decide_eq_false.
Qed.

(** With an integer the check is the check with the datetime of that Unix
    time, when there is one; on the empty frame it answers before it looks
    at its argument. *)
Lemma data_exists_int (df : DataFrame) (n : Z) :
  data_exists df (Int n)
  = match df with
    | [] => Ok false
    | _ =>
        match DT.fromtimestamp n with
        | Ok t => data_exists df (Datetime t)
        | Raise e => Raise e
        end
    end.
Proof.
  unfold data_exists. destruct df as [|r df]; [done|].
  by destruct (DT.fromtimestamp n).
Qed.

(** C4.  The existence check is an exact match: when its argument is an
    instant (a datetime, or an integer that is the Unix time of one), it
    answers, and it answers true exactly when some record of the frame has
    the very timestamp asked for; a record at 13:00:00 does not answer a
    query for 13:00:01 of the same day; and on the empty frame the check is
    false for every argument.  An integer that is the Unix time of no
    datetime makes the check raise on every frame but the empty one. *)
Theorem data_exists_exact_match (df : DataFrame) (ts : timestamp_arg) :
  (forall t, instant_of ts = Ok t ->
     (exists found, data_exists df ts = Ok found)
     /\ (data_exists df ts = Ok true
         <-> exists r, r ∈ df /\ timestamp r = t))
  /\ (forall t, instant_of (Datetime t) = Ok t)
  /\ (forall day t h,
        data_exists [mk_row (mk_datetime day 13 0 0 0) t h]
          (Datetime (mk_datetime day 13 0 1 0)) = Ok false)
  /\ data_exists [] ts = Ok false
  /\ (forall e, instant_of ts = Raise e -> df <> [] ->
        data_exists df ts = Raise e).
Proof.
  split; [|split; [done|split; [|split; [done|]]]].
  - intros t Ht.
    assert (Heq : data_exists df ts = data_exists df (Datetime t)).
    { destruct ts as [n|t']; simpl in Ht.
      - rewrite data_exists_int, Ht. by destruct df.
      - by injection Ht as ->. }
    rewrite Heq. split.
    + rewrite data_exists_datetime. eauto.
    + rewrite data_exists_true, list_elem_of_fmap.
      split; intros (x & Hx1 & Hx2); exists x; by split.
  - intros day t h. apply data_exists_false. simpl.
    rewrite list_elem_of_singleton. congruence.
  - intros e He Hne. destruct ts as [n|t]; [|done]. simpl in He.
    rewrite data_exists_int, He. by destruct df.
Qed.

End ExistenceCheck.

(** ** Round trip through the store *)

Section RoundTrip.
Context {Nm : Numbers}.

Lemma parse_line_csv_line (record : WeatherRecord) :
  parse_line (csv_line record) = Ok (raw_row record).
Proof. reflexivity. Qed.

Lemma parse_lines_app (l1 l2 : list line) (r1 r2 : RawFrame) :
  parse_lines l1 = Ok r1 ->
  parse_lines l2 = Ok r2 ->
  parse_lines (l1 ++ l2) = Ok (r1 ++ r2).
Proof.
  revert r1. induction l1 as [|l l1 IH]; intros r1 H1 H2; simpl in *.
  - by injection H1 as <-.
  - destruct (parse_line l) as [r|err]; [|done].
    destruct (parse_lines l1) as [rs|err]; [|done].
    injection H1 as <-. by rewrite (IH rs eq_refl H2).
Qed.

Lemma parse_lines_csv_lines (records : list WeatherRecord) :
  parse_lines (csv_line <$> records) = Ok (raw_row <$> records).
Proof.
  induction records as [|r records IH]; [done|].
  rewrite !fmap_cons.
  change (parse_lines (csv_line r :: (csv_line <$> records)))
    with (match parse_line (csv_line r),
                parse_lines (csv_line <$> records) with
          | Ok r, Ok rs => Ok (r :: rs)
          | Raise e, _ => Raise e
          | _, Raise e => Raise e
          end).
  by rewrite parse_line_csv_line, IH.
Qed.

Lemma strptime_column_app (fmt : DT.iso_format) (d1 d2 : RawFrame)
    (f1 f2 : DataFrame) :
  strptime_column fmt d1 = Ok f1 ->
  strptime_column fmt d2 = Ok f2 ->
  strptime_column fmt (d1 ++ d2) = Ok (f1 ++ f2).
Proof.
  revert f1. induction d1 as [|r d1 IH]; intros f1 H1 H2; simpl in *.
  - by injection H1 as <-.
  - destruct (DT.strptime fmt (timestamp r)) as [t|]; [|done].
    destruct (strptime_column fmt d1) as [rs|err]; [|done].
    injection H1 as <-. by rewrite (IH rs eq_refl H2).
Qed.

Lemma strptime_column_raw_rows (records : list WeatherRecord) :
  Forall (fun r => storable (timestamp r)) records ->
  strptime_column DT.Seconds (raw_row <$> records)
  = Ok (as_stored <$> records).
Proof.
  induction 1 as [|r records (Hr & Hu & _) _ IH]; [done|].
  rewrite !fmap_cons. simpl. by rewrite (strptime_isoformat _ Hr Hu), IH.
Qed.

(** When every cell of the column is in the whole-second format, that is
    the format pandas infers. *)
Lemma to_datetime_seconds (raw : RawFrame) (df : DataFrame) :
  strptime_column DT.Seconds raw = Ok df -> to_datetime raw = Ok df.
Proof.
  intros H. destruct raw as [|r raw]; [done|].
  unfold to_datetime. simpl in H.
  destruct (DT.strptime DT.Seconds (timestamp r)) as [t|] eqn:Ht; [|done].
  rewrite (guess_datetime_format_seconds _ _ Ht). simpl. by rewrite Ht.
Qed.

Lemma frame_of_file_seconds (f : file) (df : DataFrame) :
  frame_of_file_in DT.Seconds f = Ok df -> frame_of_file f = Ok df.
Proof.
  destruct f as [|header body]; [done|]. simpl.
  destruct (decide (header = fieldnames)); [|done].
  destruct (parse_lines body) as [raw|err]; [|done].
  apply to_datetime_seconds.
Qed.

(** The lines of valid records on whole seconds read back as the
    records. *)
Lemma frame_of_file_append (f : file) (df : DataFrame)
    (records : list WeatherRecord) :
  Forall (fun r => storable (timestamp r)) records ->
  frame_of_file_in DT.Seconds f = Ok df ->
  frame_of_file_in DT.Seconds (f ++ (csv_line <$> records))
  = Ok (df ++ (as_stored <$> records)).
Proof.
  intros Hv Hf. destruct f as [|header body]; [done|].
  simpl in *. destruct (decide (header = fieldnames)); [|done].
  destruct (parse_lines body) as [raw|err] eqn:Hb; [|done].
  rewrite (parse_lines_app _ _ _ _ Hb (parse_lines_csv_lines records)).
  by apply strptime_column_app, strptime_column_raw_rows.
Qed.

Lemma frame_of_file_created (records : list WeatherRecord) :
  Forall (fun r => storable (timestamp r)) records ->
  frame_of_file_in DT.Seconds (fieldnames :: (csv_line <$> records))
  = Ok (as_stored <$> records).
Proof.
  intros Hv. apply (frame_of_file_append [fieldnames] [] records Hv).
  reflexivity.
Qed.

(** Appending to a store that holds [df] gives a store that holds [df]
    and the new records after it. *)
Lemma save_to_csv_holds (city_name : string) (info : city_info)
    (records : list WeatherRecord) (df : DataFrame) (w : world) :
  getitem CITIES city_name = Ok info ->
  Forall (fun r => storable (timestamp r)) records ->
  holds (files w !! store_path info) df ->
  holds (files (save_to_csv city_name records w).2 !! store_path info)
    (df ++ (as_stored <$> records)).
Proof.
  intros Hc Hv [Hh Hr]. split.
  - destruct records as [|r records].
    { by rewrite app_nil_r. }
    rewrite (save_to_csv_written _ _ _ _ Hc) by done.
    cbn [snd files]. rewrite lookup_insert_eq. unfold written_lines.
    destruct (files w !! store_path info) as [f|]; simpl in Hh.
    + rewrite app_nil_l. by apply frame_of_file_append.
    + subst df. by apply frame_of_file_created.
  - apply Forall_app. split; [done|].
    apply Forall_fmap. eapply Forall_impl; [exact Hv|].
    by intros r (_ & _ & Hin).
Qed.

Lemma holds_loaded (f : option file) (df : DataFrame) :
  holds f df -> loaded f = df.
Proof.
  unfold holds, loaded. intros [H _]. destruct f as [f|]; [|done].
  by rewrite (frame_of_file_seconds _ _ H).
Qed.


(** The timestamps of a loaded frame are dates of the calendar. *)
Lemma strptime_column_in_calendar (fmt : DT.iso_format) (raw : RawFrame)
    (df : DataFrame) :
  strptime_column fmt raw = Ok df ->
  Forall (fun r => DT.in_calendar (timestamp r) = true) df.
Proof.
  revert df. induction raw as [|r raw IH]; intros df H; simpl in H.
  - injection H as <-. constructor.
  - destruct (DT.strptime fmt (timestamp r)) as [t|] eqn:Ht; [|done].
    destruct (strptime_column fmt raw) as [rs|err]; [|done].
    injection H as <-. constructor; [|by apply IH].
    by apply (strptime_in_calendar fmt (timestamp r)).
Qed.

Lemma loaded_in_calendar (f : option file) (t : datetime) :
  t ∈ timestamp <$> loaded f -> DT.in_calendar t = true.
Proof.
  intros Ht. apply list_elem_of_fmap in Ht as (r & -> & Hr).
  revert Hr. unfold loaded. destruct f as [f|]; [|by intros ?%elem_of_nil].
  unfold frame_of_file. destruct f as [|header body];
    [by intros ?%elem_of_nil|].
  destruct (decide (header = fieldnames)); [|by intros ?%elem_of_nil].
  destruct (parse_lines body) as [raw|err]; [|by intros ?%elem_of_nil].
  unfold to_datetime. destruct raw as [|r0 raw]; [by intros ?%elem_of_nil|].
  destruct (DT.guess_datetime_format _) as [fmt|];
    [|by intros ?%elem_of_nil].
  destruct (strptime_column fmt (r0 :: raw)) as [df|err] eqn:Hdf;
    [|by intros ?%elem_of_nil].
  intros Hr. apply strptime_column_in_calendar in Hdf.
  by apply (proj1 (Forall_forall _ _) Hdf).
Qed.


End RoundTrip.

(** ** The gap detector *)

Section GapDetector.
Context {Nm : Numbers}.

Lemma target_hour_ok (now : datetime) (i : Z) :
  DT.in_calendar (DT.hours_before now i) = true ->
  target_hour now i = Ok (DT.floor_to_hour (DT.hours_before now i)).
Proof.
  intros Hc. unfold target_hour, DT.sub_hours. cbv zeta. by rewrite Hc.
Qed.

Lemma target_hour_overflow (now : datetime) (i : Z) :
  DT.in_calendar (DT.hours_before now i) = false ->
  target_hour now i = Raise OverflowError.
Proof.
  intros Hc. unfold target_hour, DT.sub_hours. cbv zeta. by rewrite Hc.
Qed.

(** The loop of [get_missing_hours] keeps, in the order of the loop, the
    target hours the check does not find, as long as every subtraction
    gives a date of the calendar. *)
Lemma missing_hours_loop (df : DataFrame) (now : datetime) (l : list Z)
    (acc : list datetime) (w : world) :
  Forall (fun i => DT.in_calendar (DT.hours_before now i) = true) l ->
  for_loop
    (fun missing_hours i =>
       target ← lift (target_hour now i);
       present ← lift (data_exists df (Datetime target));
       if negb present then mret (missing_hours ++ [target])
       else mret missing_hours) l acc w
  = (Ok (acc ++ filter (fun t => t ∉ timestamp <$> df)
                  ((fun i => DT.floor_to_hour (DT.hours_before now i))
                     <$> l)), w).
Proof.
  intros Hall. revert acc.
  induction Hall as [|i l Hi _ IH]; intros acc; cbn [for_loop].
  { unfold mret, M_ret. by rewrite fmap_nil, filter_nil, app_nil_r. }
  unfold mbind at 1, M_bind at 1. unfold mbind at 1, M_bind at 1.
  unfold lift at 1. rewrite (target_hour_ok _ _ Hi).
  unfold mbind at 1, M_bind at 1. unfold lift at 1.
  rewrite data_exists_datetime, fmap_cons, filter_cons.
  destruct (decide (DT.floor_to_hour (DT.hours_before now i)
                    ∈ timestamp <$> df)) as [Hin | Hin].
  - rewrite bool_decide_true by done. rewrite decide_False by auto.
    simpl. unfold mret at 1, M_ret at 1. apply IH.
  - rewrite bool_decide_false by done. rewrite decide_True by done.
    simpl. unfold mret at 1, M_ret at 1. rewrite IH.
    by rewrite <- app_assoc.
Qed.

(** The loop stops with [OverflowError] at the first subtraction that
    leaves the calendar. *)
Lemma missing_hours_loop_overflow (df : DataFrame) (now : datetime)
    (l : list Z) (acc : list datetime) (w : world) :
  ~ Forall (fun i => DT.in_calendar (DT.hours_before now i) = true) l ->
  for_loop
    (fun missing_hours i =>
       target ← lift (target_hour now i);
       present ← lift (data_exists df (Datetime target));
       if negb present then mret (missing_hours ++ [target])
       else mret missing_hours) l acc w
  = (Raise OverflowError, w).
Proof.
  revert acc. induction l as [|i l IH]; intros acc Hn.
  { exfalso. apply Hn. constructor. }
  cbn [for_loop]. unfold mbind at 1, M_bind at 1. unfold mbind at 1, M_bind at 1.
  unfold lift at 1.
  destruct (DT.in_calendar (DT.hours_before now i)) eqn:Hi.
  - rewrite (target_hour_ok _ _ Hi).
    unfold mbind at 1, M_bind at 1. unfold lift at 1.
    rewrite data_exists_datetime.
    assert (Hl : ~ Forall
                   (fun i => DT.in_calendar (DT.hours_before now i) = true)
                   l).
    { intros Hl. apply Hn. by constructor. }
    destruct (bool_decide _); simpl; unfold mret at 1, M_ret at 1;
      by apply IH.
  - by rewrite (target_hour_overflow _ _ Hi).
Qed.

Lemma range_from_one (hours_back : Z) :
  range 1 (hours_back + 1) = seqZ 1 hours_back.
Proof. unfold range. f_equal. lia. Qed.

Lemma get_missing_hours_filter (now : datetime) (city_name : string)
    (info : city_info) (hours_back : Z) (w : world) :
  getitem CITIES city_name = Ok info ->
  window_ok now hours_back ->
  get_missing_hours now city_name hours_back w
  = (Ok (filter
           (fun t => t ∉ timestamp <$> loaded (files w !! store_path info))
           (candidate_hours now hours_back)), w).
Proof.
  intros Hc Hw. unfold get_missing_hours.
  unfold mbind at 1, M_bind at 1.
  rewrite (load_existing_data_loaded _ _ _ Hc), range_from_one.
  by rewrite missing_hours_loop.
Qed.

Lemma get_missing_hours_raises (now : datetime) (city_name : string)
    (info : city_info) (hours_back : Z) (w : world) :
  getitem CITIES city_name = Ok info ->
  ~ window_ok now hours_back ->
  get_missing_hours now city_name hours_back w = (Raise OverflowError, w).
Proof.
  intros Hc Hw. unfold get_missing_hours.
  unfold mbind at 1, M_bind at 1.
  rewrite (load_existing_data_loaded _ _ _ Hc), range_from_one.
  by rewrite missing_hours_loop_overflow.
Qed.

Lemma filter_ext_elem {A} (P Q : A -> Prop) `{!forall x, Decision (P x)}
    `{!forall x, Decision (Q x)} (l : list A) :
  (forall x, x ∈ l -> P x <-> Q x) -> filter P l = filter Q l.
Proof.
  induction l as [|x l IH]; intros Hext; [done|].
  rewrite !filter_cons.
  rewrite IH by (intros y Hy; apply Hext; by right).
  destruct (decide (P x)) as [HP | HP], (decide (Q x)) as [HQ | HQ];
    try done; exfalso; apply (Hext x) in HP || apply (Hext x) in HQ;
    (done || left).
Qed.

(** C1.  For a configured city, whatever the files hold, as long as the
    window of [hours_back] hours before the clock's [now] lies within the
    calendar, the gap detector returns, in the order
    i = 1, 2, ..., hours_back, exactly the hours
    [floor_to_hour (now - i hours)] at which the existence check on the
    loaded records is false; these hours are what the program computes for
    i, and a larger i is an earlier hour, so the most recent missing hour
    comes first.  With no store file, three hours back from
    2024-01-01T10:15:00Z, these are 09:00, 08:00 and 07:00 of that day. *)
Theorem get_missing_hours_correct (city_name : string) (info : city_info)
    (w : world) :
  getitem CITIES city_name = Ok info ->
  (forall now hours_back,
     DT.valid now -> within_calendar now hours_back ->
     exists df,
       load_existing_data city_name w = (Ok df, w)
       /\ get_missing_hours now city_name hours_back w
          = (Ok (filter (fun t => data_exists df (Datetime t) = Ok false)
                   ((fun i => DT.floor_to_hour (DT.hours_before now i))
                      <$> seqZ 1 hours_back)), w))
  /\ (forall now hours_back i,
        DT.valid now -> within_calendar now hours_back ->
        1 <= i <= hours_back ->
        target_hour now i = Ok (DT.floor_to_hour (DT.hours_before now i)))
  /\ (forall now i j,
        DT.valid now -> i < j ->
        before (DT.floor_to_hour (DT.hours_before now j))
          (DT.floor_to_hour (DT.hours_before now i)))
  /\ (files w !! store_path info = None ->
      get_missing_hours (DT.of_fields 2024 1 1 10 15 0 0) city_name 3 w
      = (Ok [DT.of_fields 2024 1 1 9 0 0 0;
             DT.of_fields 2024 1 1 8 0 0 0;
             DT.of_fields 2024 1 1 7 0 0 0], w)).
Proof.
  intros Hc. split; [|split; [|split]].
  - intros now hours_back Hv Hb. eexists. split.
    + by apply load_existing_data_loaded.
    + rewrite (get_missing_hours_filter _ _ _ _ _ Hc)
        by (by apply window_ok_within).
      do 2 f_equal. apply filter_ext_elem. intros t _.
      by rewrite data_exists_false.
  - intros now hours_back i Hv Hb Hi. apply target_hour_ok.
    apply hours_before_in_calendar; [done|lia|].
    unfold within_calendar in Hb. lia.
  - intros now i j Hv Hij. unfold before.
    rewrite !to_micros_floor_hours_before by done. lia.
  - intros Hf. rewrite (get_missing_hours_filter _ _ _ _ _ Hc).
    + rewrite Hf. reflexivity.
    + apply window_ok_within; [repeat split; by vm_compute|by vm_compute].
Qed.

Lemma candidate_hours_length (now : datetime) (hours_back : Z) :
  length (candidate_hours now hours_back) = Z.to_nat hours_back.
Proof. unfold candidate_hours. by rewrite length_fmap, length_seqZ. Qed.

Lemma candidate_hours_elem (now t : datetime) (hours_back : Z) :
  t ∈ candidate_hours now hours_back <->
  exists i, 1 <= i <= hours_back
            /\ t = DT.floor_to_hour (DT.hours_before now i).
Proof.
  unfold candidate_hours. rewrite list_elem_of_fmap.
  setoid_rewrite elem_of_seqZ.
  split; intros (i & Hi1 & Hi2); exists i; split; (done || lia).
Qed.

(** C6.  For a configured city and a clock reading [now], whatever the
    files hold, as long as the window of [hours_back] hours before [now]
    lies within the calendar, the gap detector returns a list of at most
    [hours_back] hours; each has minute, second and microsecond zero and is
    an instant strictly before [floor_to_hour now]. *)
Theorem get_missing_hours_bounds (city_name : string) (info : city_info)
    (w : world) (now : datetime) (hours_back : Z) :
  getitem CITIES city_name = Ok info ->
  DT.valid now ->
  within_calendar now hours_back ->
  exists missing_hours,
    get_missing_hours now city_name hours_back w = (Ok missing_hours, w)
    /\ (length missing_hours <= Z.to_nat hours_back)%nat
    /\ (0 <= hours_back -> Z.of_nat (length missing_hours) <= hours_back)
    /\ Forall (fun t => on_the_hour t
                        /\ before t (DT.floor_to_hour now)) missing_hours.
Proof.
  intros Hc Hv Hb. eexists. split.
  { apply (get_missing_hours_filter _ _ _ _ _ Hc).
    by apply window_ok_within. }
  set (P := fun t : datetime => t ∉ _).
  assert (Hlen : (length (filter P (candidate_hours now hours_back))
                  <= Z.to_nat hours_back)%nat).
  { rewrite <- (candidate_hours_length now). apply length_filter. }
  split; [done|]. split; [lia|].
  apply Forall_forall. intros t Ht.
  apply list_elem_of_filter in Ht as [_ Ht].
  apply candidate_hours_elem in Ht as (i & Hi & ->). split.
  - by repeat split.
  - unfold before. rewrite to_micros_floor_hours_before by done. lia.
Qed.

End GapDetector.

(** ** The orchestrator *)

Section Orchestrator.
Context {Nm : Numbers} {Up : Upstream}.

Lemma fetch_hour_step (lat lon : num) (acc : list WeatherRecord)
    (t : datetime) (w : world) :
  fetch_hour lat lon acc t w
  = (Ok (acc ++ option_list (record_for lat lon t)),
     after_requests w [WeatherRequest lat lon (DT.timestamp t)]).
Proof.
  unfold fetch_hour, get_historical_weather, record_for. unfold_M. simpl.
  destruct (timemachine lat lon (DT.timestamp t)) as [response|err]; simpl.
  - destruct (extract_hourly_data response (DT.timestamp t)) as [[r|]|err];
      simpl; by rewrite ?app_nil_r.
  - by rewrite app_nil_r.
Qed.

(** The loop over the target hours asks for every hour, in order, and
    accumulates the records of the hours that yield one. *)
Lemma for_loop_fetch_hour (lat lon : num) (targets : list datetime)
    (acc : list WeatherRecord) (w : world) :
  for_loop (fetch_hour lat lon) targets acc w
  = (Ok (acc ++ records_for lat lon targets),
     after_requests w (weather_requests lat lon targets)).
Proof.
  revert acc w. induction targets as [|t targets IH]; intros acc w; simpl.
  { unfold mret, M_ret, after_requests. rewrite !app_nil_r.
    by destruct w. }
  unfold mbind, M_bind. rewrite fetch_hour_step, IH.
  unfold records_for, after_requests; simpl.
  rewrite <- !app_assoc. simpl.
  by destruct (record_for lat lon t).
Qed.

Lemma fetch_city_data_resolved (city_name : string) (info : city_info)
    (p : place) (ps : list place) (targets : list datetime) (w : world) :
  getitem CITIES city_name = Ok info ->
  geocoding (query info) = Ok (p :: ps) ->
  targets <> [] ->
  fetch_city_data city_name targets w
  = save_to_csv city_name (records_for (lat p) (lon p) targets)
      (after_requests w
         (GeocodingRequest (query info)
          :: weather_requests (lat p) (lon p) targets)).
Proof.
  intros Hc Hg Hne. unfold fetch_city_data.
  destruct targets as [|t targets]; [done|].
  set (ts := t :: targets).
  unfold mbind at 1, M_bind at 1, lift at 1. rewrite Hc.
  unfold try_except, get_city_coordinates.
  unfold mbind at 1, M_bind at 1.
  unfold mbind at 1, M_bind at 1.
  unfold mbind at 1, M_bind at 1, emit at 1, lift at 1. rewrite Hg.
  unfold mret at 1, M_ret at 1.
  unfold mbind at 1, M_bind at 1. rewrite for_loop_fetch_hour.
  generalize (records_for (lat p) (lon p) ts)
             (weather_requests (lat p) (lon p) ts).
  intros rs evs. unfold after_requests; simpl. rewrite <- app_assoc. simpl.
  destruct rs as [|r rs]; [done|].
  by rewrite (save_to_csv_written _ _ _ _ Hc).
Qed.

(** When the coordinates cannot be had, nothing else is asked and nothing
    is written. *)
Lemma fetch_city_data_unresolved (city_name : string) (info : city_info)
    (targets : list datetime) (w : world) :
  getitem CITIES city_name = Ok info ->
  (geocoding (query info) = Ok [] \/ exists e, geocoding (query info) = Raise e) ->
  targets <> [] ->
  fetch_city_data city_name targets w
  = (Ok tt, after_requests w [GeocodingRequest (query info)]).
Proof.
  intros Hc Hg Hne. unfold fetch_city_data.
  destruct targets as [|t targets]; [done|].
  unfold mbind at 1, M_bind at 1, lift at 1. rewrite Hc.
  unfold try_except, get_city_coordinates.
  unfold mbind at 1, M_bind at 1.
  unfold mbind at 1, M_bind at 1.
  unfold mbind at 1, M_bind at 1, emit at 1, lift at 1.
  by destruct Hg as [-> | [e ->]].
Qed.

(** What a run with resolved coordinates returns and leaves behind. *)
Lemma fetch_city_data_run (city_name : string) (info : city_info)
    (p : place) (ps : list place) (targets : list datetime) (w : world) :
  getitem CITIES city_name = Ok info ->
  geocoding (query info) = Ok (p :: ps) ->
  targets <> [] ->
  let records := records_for (lat p) (lon p) targets in
  let path := store_path info in
  let lines := written_lines (files w !! path) records in
  let w' := (fetch_city_data city_name targets w).2 in
  (fetch_city_data city_name targets w).1 = Ok tt
  /\ trace w'
     = trace w ++ [GeocodingRequest (query info)]
       ++ weather_requests (lat p) (lon p) targets
       ++ (if records is [] then [] else [FileAppend path lines])
  /\ files w'
     = (if records is [] then files w
        else <[path := default ([] : file) (files w !! path) ++ lines]>
               (files w)).
Proof.
  intros Hc Hg Hne records path lines w'. subst w'.
  rewrite (fetch_city_data_resolved _ _ _ _ _ _ Hc Hg Hne).
  fold records. split; [|split].
  - destruct records as [|r rs] eqn:Hr; [done|].
    by rewrite (save_to_csv_written _ _ _ _ Hc).
  - subst lines. destruct records as [|r rs] eqn:Hr.
    + simpl. by rewrite app_nil_r.
    + rewrite (save_to_csv_written _ _ _ _ Hc) by done. simpl.
      by rewrite <- !app_assoc.
  - subst lines. destruct records as [|r rs] eqn:Hr; [done|].
    by rewrite (save_to_csv_written _ _ _ _ Hc).
Qed.

Lemma records_for_app (lat lon : num) (l1 l2 : list datetime) :
  records_for lat lon (l1 ++ l2)
  = records_for lat lon l1 ++ records_for lat lon l2.
Proof. apply omap_app. Qed.

Lemma weather_requests_app (lat lon : num) (l1 l2 : list datetime) :
  weather_requests lat lon (l1 ++ l2)
  = weather_requests lat lon l1 ++ weather_requests lat lon l2.
Proof. apply fmap_app. Qed.

Lemma extract_hourly_data_first (response : weather_data)
    (e : hour_data) (es : list hour_data) (target_timestamp : Z) :
  data response = Some (e :: es) ->
  extract_hourly_data response target_timestamp
  = match DT.fromtimestamp (dt e) with
    | Ok t => Ok (Some (mk_row t (temp e) (hd_humidity e)))
    | Raise err => Raise err
    end.
Proof. intros Hd. unfold extract_hourly_data. by rewrite Hd. Qed.

Lemma extract_hourly_data_no_data (response : weather_data)
    (target_timestamp : Z) :
  no_data response ->
  extract_hourly_data response target_timestamp = Ok None.
Proof. intros [Hd | Hd]; unfold extract_hourly_data; by rewrite Hd. Qed.

(** C3.  The record of a requested hour carries the timestamp of the
    answer, not the hour asked for.  Let the [data] array of an answer be
    not empty.  When the [dt] of its first entry is the Unix time of a
    datetime (a time of the years 1..9999, that is, from -62135596800 to
    253402300799), [extract_hourly_data] gives the record whose timestamp
    is that datetime, whatever [target_timestamp] is; and when the
    orchestrator fetches one hour and gets such an answer, the line it
    appends to the store starts with the ISO text of that [dt], after the
    lines the file had (and the header, if the file was absent).  When the
    [dt] is the Unix time of no datetime, [extract_hourly_data] raises, and
    the orchestrator, having asked, appends nothing. *)
Theorem record_timestamp_is_response_dt (response : weather_data)
    (e : hour_data) (es : list hour_data) :
  data response = Some (e :: es) ->
  (forall t, DT.fromtimestamp (dt e) = Ok t ->
     (forall target_timestamp,
        extract_hourly_data response target_timestamp
        = Ok (Some (mk_row t (temp e) (hd_humidity e))))
     /\ (forall city_name info p ps target_time w,
           getitem CITIES city_name = Ok info ->
           geocoding (query info) = Ok (p :: ps) ->
           timemachine (lat p) (lon p) (DT.timestamp target_time)
           = Ok response ->
           let path := store_path info in
           files (fetch_city_data city_name [target_time] w).2 !! path
           = Some (default ([] : file) (files w !! path)
                   ++ (if files w !! path is Some _ then [] else [fieldnames])
                   ++ [[DT.isoformat t;
                        num_str (temp e); num_str (hd_humidity e)]])))
  /\ (DT.fromtimestamp (dt e) = Ok (DT.of_unix (dt e))
      <-> -62135596800 <= dt e <= 253402300799)
  /\ (forall err, DT.fromtimestamp (dt e) = Raise err ->
        (forall target_timestamp,
           extract_hourly_data response target_timestamp = Raise err)
        /\ (forall city_name info p ps target_time w,
              getitem CITIES city_name = Ok info ->
              geocoding (query info) = Ok (p :: ps) ->
              timemachine (lat p) (lon p) (DT.timestamp target_time)
              = Ok response ->
              fetch_city_data city_name [target_time] w
              = (Ok tt,
                 after_requests w
                   [GeocodingRequest (query info);
                    WeatherRequest (lat p) (lon p)
                      (DT.timestamp target_time)]))).
Proof.
  intros Hd. split; [|split].
  - intros t Ht. split.
    + intros target_timestamp.
      by rewrite (extract_hourly_data_first _ e es), Ht.
    + intros city_name info p ps target_time w Hc Hg Hr path.
      rewrite (fetch_city_data_resolved _ _ _ _ _ _ Hc Hg) by done.
      assert (Hrs : records_for (lat p) (lon p) [target_time]
                    = [mk_row t (temp e) (hd_humidity e)]).
      { unfold records_for, record_for; simpl. rewrite Hr.
        by rewrite (extract_hourly_data_first _ _ _ _ Hd), Ht. }
      rewrite Hrs, (save_to_csv_written _ _ _ _ Hc) by done.
      cbn [snd files after_requests]. fold path.
      by rewrite lookup_insert_eq.
  - rewrite <- of_unix_in_calendar. unfold DT.fromtimestamp. cbv zeta.
    by destruct (DT.in_calendar (DT.of_unix (dt e))).
  - intros err Herr. split.
    + intros target_timestamp.
      by rewrite (extract_hourly_data_first _ e es), Herr.
    + intros city_name info p ps target_time w Hc Hg Hr.
      rewrite (fetch_city_data_resolved _ _ _ _ _ _ Hc Hg) by done.
      assert (Hrs : records_for (lat p) (lon p) [target_time] = []).
      { unfold records_for, record_for; simpl. rewrite Hr.
        by rewrite (extract_hourly_data_first _ _ _ _ Hd), Herr. }
      by rewrite Hrs.
Qed.

(** C7.  A failure while one hour is fetched does not abort the batch.
    When the city is configured and its coordinates are resolved, the
    orchestrator asks for every target hour, in order, whatever the earlier
    hours did; an hour whose request raises contributes no record and the
    hours around it contribute theirs; and after the loop the records of
    all the hours that yielded one are written by one append, the only one
    of the run (none when no hour yielded a record). *)
Theorem fetch_city_data_isolates_failures (city_name : string)
    (info : city_info) (p : place) (ps : list place)
    (targets : list datetime) (w : world) :
  getitem CITIES city_name = Ok info ->
  geocoding (query info) = Ok (p :: ps) ->
  targets <> [] ->
  let records := records_for (lat p) (lon p) targets in
  let path := store_path info in
  let lines := written_lines (files w !! path) records in
  let w' := (fetch_city_data city_name targets w).2 in
  (fetch_city_data city_name targets w).1 = Ok tt
  /\ trace w'
     = trace w ++ [GeocodingRequest (query info)]
       ++ weather_requests (lat p) (lon p) targets
       ++ (if records is [] then [] else [FileAppend path lines])
  /\ files w'
     = (if records is [] then files w
        else <[path := default ([] : file) (files w !! path) ++ lines]>
               (files w))
  /\ (forall before t after e,
        targets = before ++ t :: after ->
        timemachine (lat p) (lon p) (DT.timestamp t) = Raise e ->
        records = records_for (lat p) (lon p) before
                  ++ records_for (lat p) (lon p) after).
Proof.
  intros Hc Hg Hne records path lines w'.
  destruct (fetch_city_data_run _ _ _ _ _ w Hc Hg Hne) as (Hok & Htr & Hf).
  split; [done|]. split; [done|]. split; [done|].
  intros before t after e -> Ht. subst records.
  rewrite records_for_app. f_equal.
  unfold records_for at 1; simpl. unfold record_for at 1. by rewrite Ht.
Qed.

(** C8.  An answer without a [data] entry is not an error: the client's
    result is [None], nothing is raised; the orchestrator adds no record
    for that hour and goes on with the next target hour.  For the whole
    run of a city whose coordinates resolve: every hour before and after
    the one without data is asked for, in order; the records written, by
    the one append after the loop, are those of the other hours; and the
    store ends as it would have, had that hour not been asked for. *)
Theorem no_data_hour_is_skipped (latitude longitude : num) (target_time : datetime)
    (response : weather_data) :
  timemachine latitude longitude (DT.timestamp target_time) = Ok response ->
  no_data response ->
  extract_hourly_data response (DT.timestamp target_time) = Ok None
  /\ (forall new_records rest w,
        let w1 := after_requests w
                    [WeatherRequest latitude longitude (DT.timestamp target_time)] in
        fetch_hour latitude longitude new_records target_time w = (Ok new_records, w1)
        /\ for_loop (fetch_hour latitude longitude) (target_time :: rest) new_records w
           = for_loop (fetch_hour latitude longitude) rest new_records w1)
  /\ (forall city_name info p ps before after w,
        getitem CITIES city_name = Ok info ->
        geocoding (query info) = Ok (p :: ps) ->
        lat p = latitude -> lon p = longitude ->
        let run :=
          fetch_city_data city_name (before ++ target_time :: after) w in
        let records :=
          records_for latitude longitude before
          ++ records_for latitude longitude after in
        let path := store_path info in
        let lines := written_lines (files w !! path) records in
        run.1 = Ok tt
        /\ trace run.2
           = trace w ++ [GeocodingRequest (query info)]
             ++ weather_requests latitude longitude before
             ++ [WeatherRequest latitude longitude (DT.timestamp target_time)]
             ++ weather_requests latitude longitude after
             ++ (if records is [] then [] else [FileAppend path lines])
        /\ files run.2
           = (if records is [] then files w
              else <[path := default ([] : file) (files w !! path) ++ lines]>
                     (files w))
        /\ files run.2
           = files (fetch_city_data city_name (before ++ after) w).2).
Proof.
  intros Ht Hn.
  assert (Hr : record_for latitude longitude target_time = None).
  { unfold record_for. rewrite Ht.
    by rewrite extract_hourly_data_no_data. }
  split; [by apply extract_hourly_data_no_data|]. split.
  - intros new_records rest w w1.
    assert (Hs : fetch_hour latitude longitude new_records target_time w
                 = (Ok new_records, w1)).
    { rewrite fetch_hour_step, Hr. simpl. by rewrite app_nil_r. }
    split; [done|]. simpl. unfold mbind, M_bind. by rewrite Hs.
  - intros city_name info p ps before after w Hc Hg <- <- run records path
      lines.
    assert (Hne : before ++ target_time :: after <> [])
      by (by destruct before).
    assert (Hrs : records_for (lat p) (lon p) (before ++ target_time :: after)
                  = records).
    { rewrite records_for_app. subst records. f_equal.
      unfold records_for at 1; simpl. by rewrite Hr. }
    destruct (fetch_city_data_run _ _ _ _ _ w Hc Hg Hne)
      as (Hok & Htr & Hf).
    rewrite Hrs in Htr, Hf. fold path lines run in Hok, Htr, Hf.
    split; [done|]. split.
    { rewrite Htr, weather_requests_app. simpl.
      by rewrite <- !app_assoc. }
    split; [done|]. rewrite Hf.
    destruct (decide (before ++ after = [])) as [Hnil | Hnil].
    + rewrite Hnil. apply app_eq_nil in Hnil as [-> ->]. done.
    + destruct (fetch_city_data_run _ _ _ _ _ w Hc Hg Hnil)
        as (_ & _ & Hf').
      rewrite records_for_app in Hf'. fold records path lines in Hf'.
      by rewrite Hf'.
Qed.

End Orchestrator.

(** ** Running the backfill twice *)

Section Backfill.
Context {Nm : Numbers} {Up : Upstream}.

Lemma omap_cons {A B} (f : A -> option B) (x : A) (l : list A) :
  omap f (x :: l)
  = match f x with Some y => y :: omap f l | None => omap f l end.
Proof. reflexivity. Qed.

Lemma timestamp_as_stored (records : list WeatherRecord) :
  timestamp <$> (as_stored <$> records) = timestamp <$> records.
Proof. rewrite <- list_fmap_compose. by apply list_fmap_ext. Qed.

(** What [save_to_csv] does to the files depends on the files only. *)
Lemma save_to_csv_files (city_name : string) (info : city_info)
    (records : list WeatherRecord) (w w0 : world) :
  getitem CITIES city_name = Ok info ->
  files w = files w0 ->
  (save_to_csv city_name records w).1 = Ok tt
  /\ files (save_to_csv city_name records w).2
     = files (save_to_csv city_name records w0).2.
Proof.
  intros Hc Hf. destruct records as [|r records]; [done|].
  rewrite !(save_to_csv_written _ _ _ _ Hc) by done. simpl.
  by rewrite Hf.
Qed.

Lemma omap_yield_resolved (info : city_info) (p : place) (ps : list place)
    (targets : list datetime) :
  geocoding (query info) = Ok (p :: ps) ->
  omap (yield info) targets = records_for (lat p) (lon p) targets.
Proof.
  intros Hg. unfold records_for. apply list_omap_ext.
  apply Forall2_same_length_lookup. split; [done|].
  intros i x y Hx Hy. assert (x = y) as -> by congruence.
  unfold yield. by rewrite Hg.
Qed.

Lemma omap_yield_unresolved (info : city_info) (targets : list datetime) :
  (geocoding (query info) = Ok [] \/ exists e, geocoding (query info) = Raise e) ->
  omap (yield info) targets = [].
Proof.
  intros Hg. induction targets as [|t targets IH]; [done|].
  rewrite omap_cons, IH. unfold yield. by destruct Hg as [-> | [e ->]].
Qed.

(** One run of [fetch_city_data]: it ends normally, and the files are those
    of one append of the records the target hours yield. *)
Lemma fetch_city_data_yield (city_name : string) (info : city_info)
    (targets : list datetime) (w : world) :
  getitem CITIES city_name = Ok info ->
  (fetch_city_data city_name targets w).1 = Ok tt
  /\ files (fetch_city_data city_name targets w).2
     = files (save_to_csv city_name (omap (yield info) targets) w).2.
Proof.
  intros Hc. destruct (decide (targets = [])) as [-> | Hne]; [done|].
  destruct (geocoding (query info)) as [[|p ps]|e] eqn:Hg.
  - rewrite (fetch_city_data_unresolved _ _ _ _ Hc) by auto.
    by rewrite omap_yield_unresolved by auto.
  - rewrite (fetch_city_data_resolved _ _ _ _ _ _ Hc Hg Hne).
    rewrite (omap_yield_resolved _ _ _ _ Hg).
    by apply (save_to_csv_files _ info _ _ w Hc).
  - rewrite (fetch_city_data_unresolved _ _ _ _ Hc) by eauto.
    by rewrite omap_yield_unresolved by eauto.
Qed.

(** One run of the backfill for a city, the window within the calendar: it
    ends normally, and the files are those of one append of the records the
    missing hours yield. *)
Lemma fetch_missing_city_files (now : datetime) (hours_back : Z)
    (city_name : string) (info : city_info) (w : world) :
  getitem CITIES city_name = Ok info ->
  window_ok now hours_back ->
  let missing_hours :=
    filter (fun t => t ∉ timestamp <$> loaded (files w !! store_path info))
      (candidate_hours now hours_back) in
  (fetch_missing_city now hours_back city_name w).1 = Ok tt
  /\ files (fetch_missing_city now hours_back city_name w).2
     = files (save_to_csv city_name (omap (yield info) missing_hours) w).2.
Proof.
  intros Hc Hw missing_hours. unfold fetch_missing_city.
  unfold mbind, M_bind. rewrite (get_missing_hours_filter _ _ _ _ _ Hc Hw).
  fold missing_hours.
  destruct missing_hours as [|t ts] eqn:Hm; [done|].
  rewrite <- Hm. by apply fetch_city_data_yield.
Qed.

(** A window that leaves the calendar makes the run of a city raise, with
    nothing asked and nothing written. *)
Lemma fetch_missing_city_overflow (now : datetime) (hours_back : Z)
    (city_name : string) (info : city_info) (w : world) :
  getitem CITIES city_name = Ok info ->
  ~ window_ok now hours_back ->
  fetch_missing_city now hours_back city_name w = (Raise OverflowError, w).
Proof.
  intros Hc Hw. unfold fetch_missing_city. unfold mbind, M_bind.
  by rewrite (get_missing_hours_raises _ _ _ _ _ Hc Hw).
Qed.

(** With an endpoint that echoes the hour asked for, the record of an hour
    carries that hour. *)
Lemma yield_timestamp (info : city_info) (t : datetime) (r : WeatherRecord) :
  echoes ->
  DT.valid t -> microsecond t = 0 ->
  yield info t = Some r -> timestamp r = t.
Proof.
  intros He Hv Hu. unfold yield, record_for.
  destruct (geocoding (query info)) as [[|p ps]|err]; try done.
  destruct (timemachine (lat p) (lon p) (DT.timestamp t))
    as [response|err] eqn:Ht; [|done].
  unfold extract_hourly_data.
  destruct (data response) as [[|e es]|] eqn:Hd; try done.
  rewrite (He _ _ _ _ _ _ Ht Hd), (fromtimestamp_timestamp _ Hv Hu).
  by intros [= <-].
Qed.

Lemma omap_yield_timestamps (info : city_info) (targets : list datetime) :
  echoes ->
  Forall storable targets ->
  timestamp <$> omap (yield info) targets
  = filter (fun t => is_Some (yield info t)) targets.
Proof.
  intros He. induction 1 as [|t targets (Hv & Hu & _) _ IH]; [done|].
  rewrite omap_cons, filter_cons.
  destruct (yield info t) as [r|] eqn:Hy.
  - rewrite decide_True by eauto. rewrite fmap_cons, IH.
    by rewrite (yield_timestamp _ _ _ He Hv Hu Hy).
  - rewrite decide_False by (by intros [? ?]). done.
Qed.

Lemma candidate_hours_storable (now : datetime) (hours_back : Z) :
  DT.valid now ->
  within_calendar now hours_back ->
  Forall DT.in_timestamp_range (candidate_hours now hours_back) ->
  Forall storable (candidate_hours now hours_back).
Proof.
  intros Hv Hb Hr. apply Forall_forall. intros t Ht.
  pose proof (proj1 (Forall_forall _ _) Hr t Ht) as Hin.
  apply candidate_hours_elem in Ht as (i & Hi & ->).
  split; [by apply (floor_hours_before_valid _ _ hours_back)|done].
Qed.

Lemma candidate_hours_NoDup (now : datetime) (hours_back : Z) :
  DT.valid now -> NoDup (candidate_hours now hours_back).
Proof.
  intros Hv. unfold candidate_hours.
  apply NoDup_fmap_2_strong; [|apply NoDup_seqZ].
  intros i j _ _ Heq. apply (f_equal DT.to_micros) in Heq.
  rewrite !to_micros_floor_hours_before in Heq by done. lia.
Qed.

Lemma omap_all_None {A B} (f : A -> option B) (l : list A) :
  Forall (fun x => f x = None) l -> omap f l = [].
Proof.
  induction 1 as [|x l Hx _ IH]; [done|]. by rewrite omap_cons, Hx.
Qed.

(** The records an echoing endpoint gives for hours that can be stored can
    be stored. *)
Lemma omap_yield_storable (info : city_info) (targets : list datetime) :
  echoes ->
  Forall storable targets ->
  Forall (fun r => storable (timestamp r)) (omap (yield info) targets).
Proof.
  intros He Hv. apply Forall_forall. intros r Hr.
  assert (Ht : timestamp r ∈ timestamp <$> omap (yield info) targets)
    by (apply list_elem_of_fmap; eauto).
  rewrite (omap_yield_timestamps _ _ He Hv) in Ht.
  apply list_elem_of_filter in Ht as [_ Ht].
  by apply (proj1 (Forall_forall _ _) Hv).
Qed.

(** C2, as the code has it.  Let the weather endpoint echo the hour it is
    asked for; let the store of a configured city be absent, or be the
    header and lines with whole-second timestamps, and read as a frame
    without duplicate timestamps; let the window lie within the calendar,
    its hours being instants pandas holds in nanoseconds; and let the
    backfill run twice, the clock showing the same [now] and the endpoints
    answering the same.  Then both runs end normally; the missing hours of
    the second run are those of the first run that yielded no record, in
    the same order (none when every missing hour yielded a record, all of
    them when none did); and the store loads, after the second run, as the
    frame it held followed by the records of the first run, a frame without
    duplicate timestamps. *)
Theorem backfill_twice_echo (now : datetime) (hours_back : Z)
    (city_name : string) (info : city_info) (df : DataFrame) (w : world) :
  getitem CITIES city_name = Ok info ->
  echoes ->
  DT.valid now ->
  within_calendar now hours_back ->
  Forall DT.in_timestamp_range (candidate_hours now hours_back) ->
  holds (files w !! store_path info) df ->
  NoDup (timestamp <$> df) ->
  let run := fetch_missing_city now hours_back city_name in
  let w1 := (run w).2 in
  let w2 := (run w1).2 in
  exists m1 df2,
    (run w).1 = Ok tt /\ (run w1).1 = Ok tt
    /\ get_missing_hours now city_name hours_back w = (Ok m1, w)
    /\ get_missing_hours now city_name hours_back w1
       = (Ok (filter (fun t => yield info t = None) m1), w1)
    /\ load_existing_data city_name w2 = (Ok df2, w2)
    /\ df2 = df ++ (as_stored <$> omap (yield info) m1)
    /\ NoDup (timestamp <$> df2).
Proof.
  intros Hc He Hv Hb Hrange Hh Hnd run w1 w2.
  assert (Hw : window_ok now hours_back) by (by apply window_ok_within).
  set (path := store_path info) in *.
  set (C := candidate_hours now hours_back) in *.
  set (m1 := filter (fun t => t ∉ timestamp <$> df) C).
  set (recs := omap (yield info) m1).
  (* the first run *)
  destruct (fetch_missing_city_files now hours_back _ _ w Hc Hw)
    as [Hr1 Hf1].
  fold path C in Hf1. rewrite (holds_loaded _ _ Hh) in Hf1.
  fold m1 recs run w1 in Hf1, Hr1.
  assert (HC : Forall storable C) by (by apply candidate_hours_storable).
  assert (Hvm1 : Forall storable m1).
  { apply Forall_forall. intros t Ht.
    apply list_elem_of_filter in Ht as [_ Ht].
    by apply (proj1 (Forall_forall _ _) HC). }
  assert (Hts : timestamp <$> recs
                = filter (fun t => is_Some (yield info t)) m1)
    by (by apply omap_yield_timestamps).
  assert (Hvr : Forall (fun r => storable (timestamp r)) recs)
    by (by apply omap_yield_storable).
  assert (Hh1 : holds (files w1 !! path) (df ++ (as_stored <$> recs))).
  { rewrite Hf1. by apply save_to_csv_holds. }
  (* the missing hours of the second run *)
  assert (Hm2 : filter (fun t => t ∉ timestamp
                                     <$> loaded (files w1 !! path)) C
                = filter (fun t => yield info t = None) m1).
  { rewrite (holds_loaded _ _ Hh1). unfold m1.
    rewrite list_filter_filter. apply filter_ext_elem.
    intros t Ht. rewrite fmap_app, timestamp_as_stored, Hts.
    rewrite not_elem_of_app, list_elem_of_filter. unfold m1.
    rewrite list_elem_of_filter. split.
    - intros [Hdf Hy]. split; [|done].
      destruct (yield info t) as [r|] eqn:Hyt; [|done].
      exfalso. apply Hy. eauto.
    - intros [Hy Hdf]. split; [done|].
      intros [[r Hr] _]. congruence. }
  (* the second run writes nothing *)
  destruct (fetch_missing_city_files now hours_back _ _ w1 Hc Hw)
    as [Hr2 Hf2].
  fold path C in Hf2. rewrite Hm2 in Hf2. fold run w2 in Hf2, Hr2.
  rewrite omap_all_None in Hf2.
  2:{ apply Forall_forall. intros t Ht.
      by apply list_elem_of_filter in Ht as [Ht _]. }
  assert (Hh2 : holds (files w2 !! path) (df ++ (as_stored <$> recs))).
  { by rewrite Hf2. }
  exists m1, (df ++ (as_stored <$> recs)). repeat split; try done.
  - rewrite (get_missing_hours_filter _ _ _ _ _ Hc Hw). fold path C.
    by rewrite (holds_loaded _ _ Hh).
  - rewrite (get_missing_hours_filter _ _ _ _ _ Hc Hw). fold path C.
    by rewrite Hm2.
  - rewrite (load_existing_data_loaded _ _ _ Hc). fold path.
    by rewrite (holds_loaded _ _ Hh2).
  - rewrite fmap_app, timestamp_as_stored, Hts. apply NoDup_app.
    split; [done|]. split.
    + intros t Ht Ht'.
      apply list_elem_of_filter in Ht' as [_ Ht'].
      by apply list_elem_of_filter in Ht' as [Ht' _].
    + do 2 apply NoDup_filter. by apply candidate_hours_NoDup.
Qed.

End Backfill.

(** ** The statements at concrete inputs *)

Section Witnesses.
Import Examples.

Lemma now_valid : DT.valid now.
Proof. repeat split; by vm_compute. Qed.

Lemma at_hour_9_valid : DT.valid (at_hour 9).
Proof. repeat split; by vm_compute. Qed.

Lemma at_hour_9_storable : storable (at_hour 9).
Proof. repeat split; by vm_compute. Qed.

Lemma empty_store_holds : holds (files empty_world !! cape_town_csv) [].
Proof. split; [reflexivity|constructor]. Qed.

Lemma echo_upstream_echoes : @echoes decimal_numbers echo_upstream.
Proof.
  intros lat lon ts response e es [= <-] [= <-]. reflexivity.
Qed.

End Witnesses.

Lemma get_missing_hours_correct_witness :
  @get_missing_hours Examples.decimal_numbers Examples.now "Cape Town" 3
    Examples.empty_world
  = (Ok [Examples.at_hour 9; Examples.at_hour 8; Examples.at_hour 7],
     Examples.empty_world)
  /\ exists df,
       @load_existing_data Examples.decimal_numbers "Cape Town"
         MoreExamples.one_hour_world = (Ok df, MoreExamples.one_hour_world)
       /\ @get_missing_hours Examples.decimal_numbers Examples.now
            "Cape Town" 3 MoreExamples.one_hour_world
          = (Ok (filter
                   (fun t => data_exists df (Datetime t) = Ok false)
                   ((fun i =>
                       DT.floor_to_hour (DT.hours_before Examples.now i))
                      <$> seqZ 1 3)), MoreExamples.one_hour_world).
Proof.
  split.
  - apply (proj2 (proj2 (proj2
             (@get_missing_hours_correct Examples.decimal_numbers
                "Cape Town" Examples.cape_town_info
                Examples.empty_world eq_refl)))).
    reflexivity.
  - apply (proj1 (@get_missing_hours_correct Examples.decimal_numbers
                    "Cape Town" Examples.cape_town_info
                    MoreExamples.one_hour_world eq_refl)).
    + exact now_valid.
    + by vm_compute.
Defined.

Lemma get_missing_hours_bounds_witness :
  exists missing_hours,
    @get_missing_hours Examples.decimal_numbers Examples.now "Cape Town" 3
      Examples.empty_world
    = (Ok missing_hours, Examples.empty_world)
    /\ (length missing_hours <= 3)%nat
    /\ Forall (fun t => on_the_hour t
                        /\ before t (DT.floor_to_hour Examples.now))
         missing_hours.
Proof.
  destruct (@get_missing_hours_bounds Examples.decimal_numbers "Cape Town"
              Examples.cape_town_info Examples.empty_world Examples.now 3
              eq_refl now_valid ltac:(by vm_compute))
    as (missing_hours & Hm & Hlen & _ & Hall).
  exists missing_hours. repeat split; assumption.
Defined.

Lemma data_exists_exact_match_witness :
  data_exists [Examples.stored_reading (Examples.at_hour 9)]
    (Int 1704099600) = Ok true
  /\ data_exists [Examples.stored_reading (Examples.at_hour 9)]
       (Int 1704099601) = Ok false
  /\ data_exists [Examples.stored_reading (Examples.at_hour 9)]
       (Int 253402300800) = Raise (ValueError "year 10000 is out of range").
Proof.
  split; [|split].
  - apply (proj1 (data_exists_exact_match
                    [Examples.stored_reading (Examples.at_hour 9)]
                    (Int 1704099600)) (Examples.at_hour 9) eq_refl).
    exists (Examples.stored_reading (Examples.at_hour 9)).
    split; [left|reflexivity].
  - reflexivity.
  - apply (data_exists_exact_match
             [Examples.stored_reading (Examples.at_hour 9)]
             (Int 253402300800)); [reflexivity|discriminate].
Defined.

Lemma absent_file_load_and_append_witness :
  @load_existing_data Examples.decimal_numbers "Cape Town"
    Examples.empty_world = (Ok [], Examples.empty_world)
  /\ files
       (@save_to_csv Examples.decimal_numbers "Cape Town"
          [Examples.reading (Examples.at_hour 9)] Examples.empty_world).2
     !! Examples.cape_town_csv
     = Some [fieldnames; ["2024-01-01T09:00:00+00:00"; "21"; "60"]].
Proof.
  destruct (@absent_file_load_and_append Examples.decimal_numbers "Cape Town"
              Examples.cape_town_info
              [Examples.reading (Examples.at_hour 9)] Examples.empty_world
              eq_refl ltac:(discriminate))
    as (_ & Habsent & _).
  exact (Habsent eq_refl).
Defined.



Lemma record_timestamp_is_response_dt_witness :
  files
    (@fetch_city_data Examples.decimal_numbers Examples.snapping_upstream
       "Cape Town" [Examples.at_hour 8] Examples.empty_world).2
  !! Examples.cape_town_csv
  = Some [fieldnames; ["2024-01-01T06:00:00+00:00"; "21"; "60"]]
  /\ @fetch_city_data Examples.decimal_numbers Examples.far_upstream
       "Cape Town" [Examples.at_hour 8] Examples.empty_world
     = (Ok tt,
        @mk_world Examples.decimal_numbers ∅
          [@GeocodingRequest Examples.decimal_numbers "Cape Town,ZA";
           Examples.request 1704096000]).
Proof.
  split.
  - exact (proj2
             (proj1
                (@record_timestamp_is_response_dt Examples.decimal_numbers
                   Examples.snapping_upstream
                   (Examples.observation 1704088800) _ [] eq_refl)
                (Examples.at_hour 6) eq_refl)
             "Cape Town" Examples.cape_town_info Examples.cape_town []
             (Examples.at_hour 8) Examples.empty_world
             eq_refl eq_refl eq_refl).
  - exact (proj2
             (proj2 (proj2
                (@record_timestamp_is_response_dt Examples.decimal_numbers
                   Examples.far_upstream
                   (Examples.observation 253402300800) _ [] eq_refl))
                (ValueError "year 10000 is out of range") eq_refl)
             "Cape Town" Examples.cape_town_info Examples.cape_town []
             (Examples.at_hour 8) Examples.empty_world
             eq_refl eq_refl eq_refl).
Defined.

Lemma fetch_city_data_isolates_failures_witness :
  let targets := Examples.at_hour <$> [9; 8; 7; 6; 5] in
  let run :=
    @fetch_city_data Examples.decimal_numbers Examples.flaky_upstream
      "Cape Town" targets Examples.empty_world in
  run.1 = Ok tt
  /\ trace run.2
     = [@GeocodingRequest Examples.decimal_numbers "Cape Town,ZA";
        Examples.request 1704099600;
        Examples.request 1704096000;
        Examples.request 1704092400;
        Examples.request 1704088800;
        Examples.request 1704085200;
        FileAppend Examples.cape_town_csv
          [fieldnames;
           ["2024-01-01T06:00:00+00:00"; "21"; "60"];
           ["2024-01-01T05:00:00+00:00"; "21"; "60"]]].
Proof.
  intros targets run.
  destruct (@fetch_city_data_isolates_failures Examples.decimal_numbers
              Examples.flaky_upstream "Cape Town" Examples.cape_town_info
              Examples.cape_town [] targets Examples.empty_world
              eq_refl eq_refl ltac:(discriminate))
    as (Hok & Htrace & _).
  split; [exact Hok | exact Htrace].
Defined.

Lemma no_data_hour_is_skipped_witness :
  let run :=
    @fetch_city_data Examples.decimal_numbers Examples.flaky_upstream
      "Cape Town" (Examples.at_hour <$> [9; 8; 6]) Examples.empty_world in
  @extract_hourly_data Examples.decimal_numbers
    (@mk_weather_data Examples.decimal_numbers (Some []))
    (DT.timestamp (Examples.at_hour 8)) = Ok None
  /\ run.1 = Ok tt
  /\ trace run.2
     = [@GeocodingRequest Examples.decimal_numbers "Cape Town,ZA";
        Examples.request 1704099600;
        Examples.request 1704096000;
        Examples.request 1704088800;
        FileAppend Examples.cape_town_csv
          [fieldnames; ["2024-01-01T06:00:00+00:00"; "21"; "60"]]]
  /\ files run.2 !! Examples.cape_town_csv
     = Some [fieldnames; ["2024-01-01T06:00:00+00:00"; "21"; "60"]].
Proof.
  intros run.
  destruct (@no_data_hour_is_skipped Examples.decimal_numbers
              Examples.flaky_upstream (-34) 18 (Examples.at_hour 8)
              (@mk_weather_data Examples.decimal_numbers (Some []))
              eq_refl ltac:(by right))
    as (Hnone & _ & Hcity).
  destruct (Hcity "Cape Town" Examples.cape_town_info Examples.cape_town
              [] [Examples.at_hour 9] [Examples.at_hour 6]
              Examples.empty_world eq_refl eq_refl eq_refl eq_refl)
    as (Hok & Htrace & Hfiles & _).
  split; [exact Hnone|]. split; [exact Hok|]. split; [exact Htrace|].
  exact (f_equal (fun fs => fs !! Examples.cape_town_csv) Hfiles).
Defined.

Lemma backfill_twice_echo_witness :
  let run :=
    @fetch_missing_city Examples.decimal_numbers Examples.echo_upstream
      Examples.now 3 "Cape Town" in
  exists df2,
    (@load_existing_data Examples.decimal_numbers "Cape Town"
       (run (run Examples.empty_world).2).2).1 = Ok df2
    /\ NoDup (timestamp <$> df2).
Proof.
  intros run.
  destruct (@backfill_twice_echo Examples.decimal_numbers
              Examples.echo_upstream Examples.now 3 "Cape Town"
              Examples.cape_town_info [] Examples.empty_world
              eq_refl echo_upstream_echoes now_valid
              ltac:(by vm_compute)
              ltac:(repeat constructor; by vm_compute)
              empty_store_holds (NoDup_nil_2))
    as (m1 & df2 & _ & _ & _ & _ & Hload & _ & Hnd).
  exists df2. split; [|exact Hnd].
  unfold run. by rewrite Hload.
Defined.

(** C2, as the claim has it, fails.  With an endpoint that answers 09:00 as
    asked and every other hour with the observation of 06:00, on an empty
    store, three hours back from 10:15: the first run misses 09:00, 08:00
    and 07:00 and stores 09:00 and twice 06:00; the second run misses 08:00
    and 07:00, which is neither nothing nor what the first run missed, and
    stores 06:00 twice more. *)
Lemma backfill_twice_duplicates :
  let run :=
    @fetch_missing_city Examples.decimal_numbers Examples.snapping_upstream
      Examples.now 3 "Cape Town" in
  let w1 := (run Examples.empty_world).2 in
  let w2 := (run w1).2 in
  exists m1 m2 df2,
    (@get_missing_hours Examples.decimal_numbers Examples.now "Cape Town" 3
       Examples.empty_world).1 = Ok m1
    /\ (@get_missing_hours Examples.decimal_numbers Examples.now "Cape Town"
          3 w1).1 = Ok m2
    /\ (@load_existing_data Examples.decimal_numbers "Cape Town" w2).1
       = Ok df2
    /\ ~ NoDup (timestamp <$> df2)
    /\ m2 <> []
    /\ m2 <> m1.
Proof.
  intros run w1 w2.
  exists [Examples.at_hour 9; Examples.at_hour 8; Examples.at_hour 7],
         [Examples.at_hour 8; Examples.at_hour 7],
         (Examples.stored_reading <$>
            [Examples.at_hour 9; Examples.at_hour 6; Examples.at_hour 6;
             Examples.at_hour 6; Examples.at_hour 6]).
  split; [by vm_compute|]. split; [by vm_compute|].
  split; [by vm_compute|]. split; [|split; discriminate].
  intros Hnd. apply NoDup_cons in Hnd as [_ Hnd].
  apply NoDup_cons in Hnd as [Hnin _]. apply Hnin. left.
Qed.

(** * Further properties of the fetcher *)

(** ** Cities that are not configured, coordinates that do not resolve *)

Section ErrorPaths.
Context {Nm : Numbers} {Up : Upstream}.

Lemma getitem_unknown {V} (d : list (string * V)) (key : string) :
  key ∉ keys d -> getitem d key = Raise (KeyError key).
Proof.
  induction d as [|[k v] d IH]; intros Hk; [done|].
  simpl. unfold keys in Hk. simpl in Hk.
  apply not_elem_of_cons in Hk as [Hne Hk].
  rewrite decide_False by done. by apply IH.
Qed.

Lemma getitem_known {V} (d : list (string * V)) (key : string) (v : V) :
  getitem d key = Ok v -> key ∈ keys d.
Proof.
  induction d as [|[k v'] d IH]; [done|]. simpl.
  destruct (decide (k = key)) as [-> | Hne]; intros Hg.
  - left.
  - right. by apply IH.
Qed.

(** X2.  A city that is no key of [CITIES] makes every operation on its
    store raise [KeyError] with nothing done: no file is read or written
    and no request is sent.  This holds for [fetch_city_data] too, whose
    [except] clauses do not cover the lookup of the city.  Only with nothing
    to do, an empty list of records or of target hours, do [save_to_csv] and
    [fetch_city_data] return before they look the city up. *)
Theorem unknown_city_raises_KeyError (city_name : string) (now : datetime)
    (hours_back : Z) (records : list WeatherRecord)
    (target_times : list datetime) (w : world) :
  city_name ∉ keys CITIES ->
  records <> [] ->
  target_times <> [] ->
  get_csv_path city_name w = (Raise (KeyError city_name), w)
  /\ load_existing_data city_name w = (Raise (KeyError city_name), w)
  /\ get_missing_hours now city_name hours_back w
     = (Raise (KeyError city_name), w)
  /\ save_to_csv city_name records w = (Raise (KeyError city_name), w)
  /\ fetch_city_data city_name target_times w
     = (Raise (KeyError city_name), w)
  /\ save_to_csv city_name [] w = (Ok tt, w)
  /\ fetch_city_data city_name [] w = (Ok tt, w).
Proof.
  intros Hk Hr Ht. pose proof (getitem_unknown CITIES _ Hk) as Hg.
  assert (Hp : get_csv_path city_name w = (Raise (KeyError city_name), w)).
  { unfold get_csv_path. unfold_M. by rewrite Hg. }
  assert (Hl : load_existing_data city_name w
               = (Raise (KeyError city_name), w)).
  { unfold load_existing_data. unfold mbind at 1, M_bind at 1.
    by rewrite Hp. }
  assert (Hm : get_missing_hours now city_name hours_back w
               = (Raise (KeyError city_name), w)).
  { unfold get_missing_hours. unfold mbind at 1, M_bind at 1.
    by rewrite Hl. }
  repeat split; try done.
  - destruct records as [|r records]; [done|]. unfold save_to_csv.
    unfold mbind at 1, M_bind at 1. by rewrite Hp.
  - destruct target_times as [|t ts]; [done|]. unfold fetch_city_data.
    unfold mbind at 1, M_bind at 1, lift at 1. by rewrite Hg.
Qed.

(** X1.  When the coordinates of a configured city do not resolve, because
    the geocoding answer is empty ([get_city_coordinates] raises
    [ValueError]) or because the request raises, [fetch_city_data] gives the
    batch up and still returns normally: the one geocoding request is all it
    sends, no hour is asked for and no file changes. *)
Theorem fetch_city_data_gives_up_without_coordinates (city_name : string)
    (info : city_info) (target_times : list datetime) (w : world) :
  getitem CITIES city_name = Ok info ->
  target_times <> [] ->
  (geocoding (query info) = Ok []
   \/ exists e, geocoding (query info) = Raise e) ->
  (exists e, get_city_coordinates (query info) w
             = (Raise e, after_requests w [GeocodingRequest (query info)])
             /\ (geocoding (query info) = Ok [] ->
                 e = ValueError ("City not found: " +:+ query info)))
  /\ (fetch_city_data city_name target_times w).1 = Ok tt
  /\ files (fetch_city_data city_name target_times w).2 = files w
  /\ trace (fetch_city_data city_name target_times w).2
     = trace w ++ [GeocodingRequest (query info)].
Proof.
  intros Hc Ht Hg. split.
  - unfold get_city_coordinates. unfold_M. simpl.
    destruct Hg as [Hg | [e Hg]]; rewrite Hg; eexists; by split.
  - by rewrite (fetch_city_data_unresolved _ _ _ _ Hc Hg Ht).
Qed.

End ErrorPaths.

(** ** More on the existence check and the gap detector *)

Section GapDetectorMore.
Context {Nm : Numbers} {Up : Upstream}.

(** X4.  The existence check takes a Unix time as well as a datetime: for a
    valid datetime on a whole second, asking with [int(t.timestamp())] and
    asking with [t] itself give the same answer on every frame. *)
Theorem data_exists_int_agrees (df : DataFrame) (t : datetime) :
  DT.valid t ->
  microsecond t = 0 ->
  data_exists df (Int (DT.timestamp t)) = data_exists df (Datetime t).
Proof.
  intros Hv Hu. rewrite data_exists_int, fromtimestamp_timestamp by done.
  by destruct df.
Qed.

Lemma window_ok_dec (now : datetime) (hours_back : Z) :
  {window_ok now hours_back} + {~ window_ok now hours_back}.
Proof. unfold window_ok. apply Forall_dec. intros i. apply _. Qed.

(** When the store holds every hour of the window, the window lies within
    the calendar: the store holds dates of the calendar only. *)
Lemma window_ok_of_stored (now : datetime) (hours_back : Z)
    (f : option file) :
  (forall t, t ∈ candidate_hours now hours_back ->
     t ∈ timestamp <$> loaded f) ->
  window_ok now hours_back.
Proof.
  intros Hall. apply Forall_forall. intros i Hi.
  change (DT.in_calendar (DT.hours_before now i))
    with (DT.in_calendar (DT.floor_to_hour (DT.hours_before now i))).
  apply (loaded_in_calendar f), Hall.
  unfold candidate_hours. apply list_elem_of_fmap. eauto.
Qed.

Lemma filter_nil_all {A} (P : A -> Prop) `{!forall x, Decision (P x)}
    (l : list A) :
  filter P l = [] <-> forall x, x ∈ l -> ~ P x.
Proof.
  split.
  - intros Hnil x Hx HP. by apply (filter_nil_not_elem_of P l x).
  - intros Hall. induction l as [|x l IH]; [done|].
    rewrite filter_cons, decide_False by (apply Hall; left).
    apply IH. intros y Hy. apply Hall. by right.
Qed.

Lemma get_missing_hours_nil (now : datetime) (city_name : string)
    (info : city_info) (hours_back : Z) (w : world) :
  getitem CITIES city_name = Ok info ->
  (get_missing_hours now city_name hours_back w = (Ok [], w)
   <-> forall t, t ∈ candidate_hours now hours_back ->
         t ∈ timestamp <$> loaded (files w !! store_path info)).
Proof.
  intros Hc. destruct (window_ok_dec now hours_back) as [Hw | Hw].
  - rewrite (get_missing_hours_filter _ _ _ _ _ Hc Hw). split.
    + intros [= Hnil] t Ht.
      destruct (decide (t ∈ timestamp
                          <$> loaded (files w !! store_path info)))
        as [Hin | Hin]; [done|].
      exfalso. by apply (proj1 (filter_nil_all _ _) Hnil t).
    + intros Hall. do 2 f_equal. apply filter_nil_all.
      intros t Ht Hn. by apply Hn, Hall.
  - rewrite (get_missing_hours_raises _ _ _ _ _ Hc Hw). split; [done|].
    intros Hall. exfalso. by apply Hw, (window_ok_of_stored _ _ _ Hall).
Qed.

(** X5.  The gap detector reports nothing exactly when every hour of the
    window is in the store; the backfill of the city then changes nothing
    at all, neither file nor trace: no request is sent.  A window of no hour
    ([hours_back] zero or negative) is such a case. *)
Theorem nothing_missing_is_silent (now : datetime) (city_name : string)
    (info : city_info) (hours_back : Z) (w : world) :
  getitem CITIES city_name = Ok info ->
  let stored := timestamp <$> loaded (files w !! store_path info) in
  (get_missing_hours now city_name hours_back w = (Ok [], w)
   <-> forall t, t ∈ candidate_hours now hours_back -> t ∈ stored)
  /\ ((forall t, t ∈ candidate_hours now hours_back -> t ∈ stored) ->
      fetch_missing_city now hours_back city_name w = (Ok tt, w))
  /\ (hours_back <= 0 ->
      fetch_missing_city now hours_back city_name w = (Ok tt, w)).
Proof.
  intros Hc stored.
  assert (Hsilent :
    (forall t, t ∈ candidate_hours now hours_back -> t ∈ stored) ->
    fetch_missing_city now hours_back city_name w = (Ok tt, w)).
  { intros Hall. unfold fetch_missing_city. unfold mbind, M_bind.
    by rewrite (proj2 (get_missing_hours_nil _ _ _ _ _ Hc) Hall). }
  split; [by apply get_missing_hours_nil|]. split; [done|].
  intros Hb. apply Hsilent. intros t Ht.
  unfold candidate_hours in Ht. rewrite seqZ_nil in Ht by done.
  by apply elem_of_nil in Ht.
Qed.

Lemma candidate_hours_descending (now : datetime) (hours_back : Z) :
  DT.valid now -> descending (candidate_hours now hours_back).
Proof.
  intros Hv i j a b Ha Hb Hij. unfold candidate_hours in *.
  rewrite list_lookup_fmap in Ha, Hb.
  destruct (seqZ 1 hours_back !! i) as [x|] eqn:Hx; [|done].
  destruct (seqZ 1 hours_back !! j) as [y|] eqn:Hy; [|done].
  simpl in Ha, Hb. injection Ha as <-. injection Hb as <-.
  apply lookup_seqZ in Hx as [-> _]. apply lookup_seqZ in Hy as [-> _].
  unfold before. rewrite !to_micros_floor_hours_before by done. lia.
Qed.

Lemma descending_cons_inv (x : datetime) (l : list datetime) :
  descending (x :: l) ->
  descending l /\ forall y, y ∈ l -> before y x.
Proof.
  intros Hd. split.
  - intros i j a b Ha Hb Hij. apply (Hd (S i) (S j)); (done || lia).
  - intros y Hy. apply list_elem_of_lookup in Hy as [k Hk].
    apply (Hd 0%nat (S k)); (done || lia).
Qed.

Lemma descending_cons (x : datetime) (l : list datetime) :
  descending l -> (forall y, y ∈ l -> before y x) -> descending (x :: l).
Proof.
  intros Hd Hx i j a b Ha Hb Hij.
  destruct j as [|j]; [lia|]. simpl in Hb. destruct i as [|i].
  - simpl in Ha. injection Ha as <-. apply Hx.
    apply list_elem_of_lookup. eauto.
  - simpl in Ha. apply (Hd i j); (done || lia).
Qed.

Lemma descending_filter (P : datetime -> Prop) `{!forall t, Decision (P t)}
    (l : list datetime) :
  descending l -> descending (filter P l).
Proof.
  induction l as [|x l IH]; intros Hd; [done|].
  apply descending_cons_inv in Hd as [Hd Hx]. rewrite filter_cons.
  destruct (decide (P x)); [|by apply IH].
  apply descending_cons; [by apply IH|].
  intros y Hy. apply Hx. by apply list_elem_of_filter in Hy as [_ Hy].
Qed.

(** X12.  The list the gap detector returns for a window within the
    calendar runs backwards in time: every later entry is an earlier
    instant, the most recent missing hour comes first, and no hour is
    listed twice. *)
Theorem get_missing_hours_descending (now : datetime) (city_name : string)
    (info : city_info) (hours_back : Z) (w : world) :
  getitem CITIES city_name = Ok info ->
  DT.valid now ->
  within_calendar now hours_back ->
  exists missing_hours,
    get_missing_hours now city_name hours_back w = (Ok missing_hours, w)
    /\ descending missing_hours
    /\ NoDup missing_hours.
Proof.
  intros Hc Hv Hb. eexists. split.
  { apply (get_missing_hours_filter _ _ _ _ _ Hc).
    by apply window_ok_within. }
  split.
  - by apply descending_filter, candidate_hours_descending.
  - by apply NoDup_filter, candidate_hours_NoDup.
Qed.

(** X17.  The window has to lie within the calendar: for a configured city
    and a valid [now], the gap detector returns a list exactly when
    [hours_back] hours before [now] is not before the first hour of the
    year 1; otherwise the subtraction of the first hour that is raises
    [OverflowError], which nothing catches: [get_missing_hours] and the
    whole run of [fetch_missing_data] end with it, before any request and
    with no file changed, and so does [fetch_latest_hour] in the first hour
    of the year 1. *)
Theorem window_outside_calendar_raises (now : datetime)
    (city_name : string) (info : city_info) (hours_back : Z) (w : world) :
  getitem CITIES city_name = Ok info ->
  DT.valid now ->
  ((exists missing_hours,
      get_missing_hours now city_name hours_back w = (Ok missing_hours, w))
   <-> within_calendar now hours_back)
  /\ (~ within_calendar now hours_back ->
      get_missing_hours now city_name hours_back w
      = (Raise OverflowError, w)
      /\ fetch_missing_data now hours_back w = (Raise OverflowError, w))
  /\ (~ within_calendar now 1 ->
      fetch_latest_hour now w = (Raise OverflowError, w)).
Proof.
  intros Hc Hv. split; [|split].
  - split.
    + intros [m Hm]. apply (window_ok_within _ _ Hv).
      destruct (window_ok_dec now hours_back) as [Hw | Hw]; [done|].
      by rewrite (get_missing_hours_raises _ _ _ _ _ Hc Hw) in Hm.
    + intros Hb. eexists.
      apply (get_missing_hours_filter _ _ _ _ _ Hc).
      by apply window_ok_within.
  - intros Hb.
    assert (Hw : ~ window_ok now hours_back).
    { intros Hw. by apply Hb, (window_ok_within _ _ Hv). }
    split; [by apply (get_missing_hours_raises _ _ info)|].
    unfold fetch_missing_data. change (keys CITIES)
      with ["Cape Town"; "Kigali"; "Kampala"]%string.
    cbn [for_loop]. unfold mbind at 1, M_bind at 1.
    by rewrite (fetch_missing_city_overflow _ _ "Cape Town"
                  (mk_city_info "Cape Town,ZA" "cape_town_weather.csv")).
  - intros Hb. unfold fetch_latest_hour.
    unfold mbind at 1, M_bind at 1, lift at 1.
    rewrite target_hour_overflow; [done|].
    apply not_true_is_false. intros Hin. apply Hb.
    by apply (hours_before_in_calendar now 1 Hv).
Qed.

End GapDetectorMore.

(** ** What the runs do to the files *)

Section Files.
Context {Nm : Numbers} {Up : Upstream}.

Lemma zero_pad_head (w : nat) (n : Z) :
  exists d s, 0 <= d <= 9 /\ DT.zero_pad (S w) n = String (DT.digit_char d) s.
Proof.
  revert n. induction w as [|w IH]; intros n.
  - exists (n mod 10), ""%string.
    pose proof (Z.mod_pos_bound n 10 ltac:(lia)). split; [lia|done].
  - destruct (IH (n / 10)) as (d & s & Hd & Hs).
    exists d, (s +:+ String (DT.digit_char (n mod 10)) "")%string.
    split; [done|].
    change (DT.zero_pad (S (S w)) n)
      with (DT.zero_pad (S w) (n / 10)
            +:+ String (DT.digit_char (n mod 10)) "")%string.
    by rewrite Hs, string_app_cons.
Qed.

(** The ISO text of a datetime starts with a digit. *)
Lemma isoformat_head (t : datetime) :
  exists d s, 0 <= d <= 9 /\ DT.isoformat t = String (DT.digit_char d) s.
Proof.
  unfold DT.isoformat. destruct (Calendar.ord2ymd (ordinal t)) as [[y m] d].
  destruct (zero_pad_head 3 y) as (d0 & s & Hd & Hs).
  exists d0. eexists. split; [done|]. by rewrite Hs, string_app_cons.
Qed.

(** The line of a record is never the header line. *)
Lemma csv_line_not_header (record : WeatherRecord) :
  csv_line record <> fieldnames.
Proof.
  unfold csv_line, fieldnames.
  destruct (isoformat_head (timestamp record)) as (d & s & Hd & ->).
  intros [= Hc _].
  assert (Hcases : d = 0 \/ d = 1 \/ d = 2 \/ d = 3 \/ d = 4 \/ d = 5
                   \/ d = 6 \/ d = 7 \/ d = 8 \/ d = 9) by lia.
  repeat (destruct Hcases as [-> | Hcases]; [discriminate Hc|]).
  subst. discriminate Hc.
Qed.

Lemma filter_all_true {A} (P : A -> Prop) `{!forall x, Decision (P x)}
    (l : list A) :
  (forall x, x ∈ l -> P x) -> filter P l = l.
Proof.
  induction l as [|x l IH]; intros Hall; [done|].
  rewrite filter_cons, decide_True by (apply Hall; left).
  rewrite IH; [done|]. intros y Hy. apply Hall. by right.
Qed.

(** X3.  A store file that exists without a line never gets its header:
    appending writes the lines of the records only, so the first of them
    stands where the column names belong, the store keeps loading as the
    empty frame, and the gap detector keeps reporting every hour of any
    window within the calendar as missing. *)
Theorem empty_file_never_gets_a_header (city_name : string)
    (info : city_info) (records : list WeatherRecord) (w : world) :
  getitem CITIES city_name = Ok info ->
  files w !! store_path info = Some ([] : file) ->
  records <> [] ->
  let w' := (save_to_csv city_name records w).2 in
  load_existing_data city_name w = (Ok [], w)
  /\ files w' !! store_path info = Some ((csv_line <$> records) : file)
  /\ load_existing_data city_name w' = (Ok [], w')
  /\ (forall now hours_back,
        DT.valid now -> within_calendar now hours_back ->
        get_missing_hours now city_name hours_back w'
        = (Ok (candidate_hours now hours_back), w')).
Proof.
  intros Hc Hf Hr w'.
  assert (Hf' : files w' !! store_path info
                = Some ((csv_line <$> records) : file)).
  { subst w'. rewrite (save_to_csv_written _ _ _ _ Hc Hr).
    cbn [snd files]. rewrite lookup_insert_eq, Hf. done. }
  assert (Hl' : loaded (files w' !! store_path info) = []).
  { rewrite Hf'. destruct records as [|r records]; [done|].
    unfold loaded, frame_of_file. rewrite fmap_cons.
    by rewrite decide_False by apply csv_line_not_header. }
  split; [|split; [done|split]].
  - rewrite (load_existing_data_loaded _ _ _ Hc), Hf. done.
  - by rewrite (load_existing_data_loaded _ _ _ Hc), Hl'.
  - intros now hours_back Hv Hb.
    rewrite (get_missing_hours_filter _ _ _ _ _ Hc)
      by (by apply window_ok_within).
    rewrite Hl', filter_all_true; [done|].
    intros t _. apply not_elem_of_nil.
Qed.

Lemma store_path_in (city_name : string) (info : city_info) :
  getitem CITIES city_name = Ok info -> store_path info ∈ store_paths.
Proof.
  intros Hc. unfold store_paths. apply list_elem_of_fmap.
  exists (city_name, info). split; [done|].
  revert Hc. generalize CITIES. intros d.
  induction d as [|[k v] d IH]; [done|]. simpl.
  destruct (decide (k = city_name)) as [-> | Hne].
  - intros [= ->]. left.
  - intros Hc. right. by apply IH.
Qed.

Lemma append_only_refl (fs : gmap string file) : append_only fs fs.
Proof.
  split; [|done]. intros p f Hf. exists []. by rewrite app_nil_r.
Qed.

Lemma append_only_trans (fs1 fs2 fs3 : gmap string file) :
  append_only fs1 fs2 -> append_only fs2 fs3 -> append_only fs1 fs3.
Proof.
  intros [Ha1 Hb1] [Ha2 Hb2]. split.
  - intros p f Hf. destruct (Ha1 p f Hf) as [m1 H1].
    destruct (Ha2 p _ H1) as [m2 H2]. exists (m1 ++ m2).
    by rewrite app_assoc.
  - intros p Hp. by rewrite Hb2, Hb1.
Qed.

Lemma save_to_csv_append_only (city_name : string) (info : city_info)
    (records : list WeatherRecord) (w : world) :
  getitem CITIES city_name = Ok info ->
  append_only (files w) (files (save_to_csv city_name records w).2).
Proof.
  intros Hc. destruct records as [|r records]; [apply append_only_refl|].
  rewrite (save_to_csv_written _ _ _ _ Hc) by done. cbn [snd files].
  split.
  - intros p f Hf. destruct (decide (p = store_path info)) as [-> | Hne].
    + rewrite lookup_insert_eq, Hf. eauto.
    + rewrite lookup_insert_ne by done. exists []. by rewrite app_nil_r.
  - intros p Hp. rewrite lookup_insert_ne; [done|].
    intros <-. by apply Hp, (store_path_in city_name).
Qed.

(** What [fetch_city_data] leaves in the files is what one append of some
    records leaves. *)
Lemma fetch_city_data_files (city_name : string) (info : city_info)
    (target_times : list datetime) (w : world) :
  getitem CITIES city_name = Ok info ->
  exists records,
    (fetch_city_data city_name target_times w).1 = Ok tt
    /\ files (fetch_city_data city_name target_times w).2
       = files (save_to_csv city_name records w).2.
Proof.
  intros Hc. exists (omap (yield info) target_times).
  by apply fetch_city_data_yield.
Qed.

(** X8.  [fetch_city_data] for a configured city never raises, whatever the
    endpoints do; it leaves every file but the store of that city as it
    was, and of that store it keeps every line there was, in place: what it
    writes comes after them. *)
Theorem fetch_city_data_touches_its_store_only (city_name : string)
    (info : city_info) (target_times : list datetime) (w : world) :
  getitem CITIES city_name = Ok info ->
  let w' := (fetch_city_data city_name target_times w).2 in
  (fetch_city_data city_name target_times w).1 = Ok tt
  /\ (forall p, p <> store_path info -> files w' !! p = files w !! p)
  /\ (forall f : file, files w !! store_path info = Some f ->
      exists more, files w' !! store_path info = Some (f ++ more)).
Proof.
  intros Hc w'. subst w'.
  destruct (fetch_city_data_files _ _ target_times w Hc)
    as (records & Hok & Hf).
  split; [done|]. rewrite Hf. split.
  - intros p Hp. by apply (save_to_csv_other_files _ info).
  - intros f Hs.
    by apply (proj1 (save_to_csv_append_only _ _ records w Hc)).
Qed.

Lemma getitem_of_key {V} (d : list (string * V)) (key : string) :
  key ∈ keys d -> exists v, getitem d key = Ok v.
Proof.
  induction d as [|[k v] d IH]; intros Hk.
  { by apply elem_of_nil in Hk. }
  simpl. destruct (decide (k = key)) as [-> | Hne]; [eauto|].
  apply IH. unfold keys in Hk. simpl in Hk.
  apply elem_of_cons in Hk as [-> | Hk]; done.
Qed.

(** The run of one city only appends, and raises nothing but the
    [OverflowError] of a window that leaves the calendar. *)
Lemma fetch_missing_city_append_only (now : datetime) (hours_back : Z)
    (city_name : string) (w : world) :
  city_name ∈ keys CITIES ->
  append_only (files w)
    (files (fetch_missing_city now hours_back city_name w).2)
  /\ ((fetch_missing_city now hours_back city_name w).1 = Ok tt
      \/ (fetch_missing_city now hours_back city_name w).1
         = Raise OverflowError)
  /\ (window_ok now hours_back ->
      (fetch_missing_city now hours_back city_name w).1 = Ok tt).
Proof.
  intros Hk. destruct (getitem_of_key _ _ Hk) as [info Hc].
  destruct (window_ok_dec now hours_back) as [Hw | Hw].
  - destruct (fetch_missing_city_files now hours_back _ _ w Hc Hw)
      as [Hok Hf].
    rewrite Hf. split; [by apply (save_to_csv_append_only _ info)|].
    split; [by left|done].
  - rewrite (fetch_missing_city_overflow _ _ _ _ _ Hc Hw).
    split; [apply append_only_refl|]. split; [by right|done].
Qed.

(** A loop whose every round only appends to stores, and ends normally or
    with [OverflowError], does so as a whole. *)
Lemma for_loop_append_only {A} (body : unit -> A -> M unit) (xs : list A)
    (w : world) :
  (forall x w0, x ∈ xs ->
     append_only (files w0) (files (body tt x w0).2)
     /\ ((body tt x w0).1 = Ok tt
         \/ (body tt x w0).1 = Raise OverflowError)) ->
  append_only (files w) (files (for_loop body xs tt w).2)
  /\ ((for_loop body xs tt w).1 = Ok tt
      \/ (for_loop body xs tt w).1 = Raise OverflowError).
Proof.
  revert w. induction xs as [|x xs IH]; intros w Hbody.
  { split; [apply append_only_refl|by left]. }
  simpl. unfold mbind, M_bind.
  destruct (Hbody x w ltac:(left)) as [Hap Hok].
  destruct (body tt x w) as [[[]|e] w1]; simpl in Hap, Hok.
  - destruct (IH w1) as [Hap' Hok'].
    { intros y w0 Hy. apply Hbody. by right. }
    split; [|done]. by apply (append_only_trans _ (files w1)).
  - split; [done|]. simpl. destruct Hok as [Hok | Hok]; [done|by right].
Qed.

(** A loop whose every round ends normally ends normally. *)
Lemma for_loop_ok {A} (body : unit -> A -> M unit) (xs : list A)
    (w : world) :
  (forall x w0, x ∈ xs -> (body tt x w0).1 = Ok tt) ->
  (for_loop body xs tt w).1 = Ok tt.
Proof.
  revert w. induction xs as [|x xs IH]; intros w Hbody; [done|].
  simpl. unfold mbind, M_bind.
  pose proof (Hbody x w ltac:(left)) as Hok.
  destruct (body tt x w) as [[[]|e] w1]; [|done].
  apply IH. intros y w0 Hy. apply Hbody. by right.
Qed.

(** One round of the loop of [fetch_latest_hour] never raises and only
    appends. *)
Lemma fetch_latest_city (latest_hour : datetime) (city_name : string)
    (w : world) :
  city_name ∈ keys CITIES ->
  let round :=
    (existing_df ← load_existing_data city_name;
     present ← lift (data_exists existing_df (Datetime latest_hour));
     if present : bool then mret tt
     else fetch_city_data city_name [latest_hour]) w in
  round.1 = Ok tt /\ append_only (files w) (files round.2).
Proof.
  intros Hk round.
  destruct (getitem_of_key _ _ Hk) as [info Hc].
  assert (Hround :
    round
    = if bool_decide
           (latest_hour
            ∈ timestamp <$> loaded (files w !! store_path info))
      then (Ok tt, w)
      else fetch_city_data city_name [latest_hour] w).
  { subst round. unfold mbind, M_bind, lift.
    rewrite (load_existing_data_loaded _ _ _ Hc), data_exists_datetime.
    by destruct (bool_decide _). }
  rewrite Hround. destruct (bool_decide _).
  { split; [done|apply append_only_refl]. }
  destruct (fetch_city_data_files _ _ [latest_hour] w Hc)
    as (records & Hok & Hf).
  split; [done|]. rewrite Hf. by apply (save_to_csv_append_only _ info).
Qed.

(** X7.  A whole run, be it [fetch_missing_data] or [fetch_latest_hour],
    only ever appends to the stores of the configured cities, whatever the
    files hold and the endpoints answer: every file that was there keeps
    its lines in place, and no path that is not such a store is created or
    changed.  With a valid [now] and a window within the calendar it never
    raises; and the only exception a run can end with at all is the
    [OverflowError] of a window that leaves the calendar. *)
Theorem runs_never_raise_and_only_append (now : datetime)
    (max_hours_back : Z) (w : world) :
  (append_only (files w)
     (files (fetch_missing_data now max_hours_back w).2)
   /\ append_only (files w) (files (fetch_latest_hour now w).2))
  /\ (DT.valid now -> within_calendar now max_hours_back ->
      (fetch_missing_data now max_hours_back w).1 = Ok tt)
  /\ (DT.valid now -> within_calendar now 1 ->
      (fetch_latest_hour now w).1 = Ok tt)
  /\ (forall e,
        (fetch_missing_data now max_hours_back w).1 = Raise e
        \/ (fetch_latest_hour now w).1 = Raise e ->
        e = OverflowError).
Proof.
  assert (Hmissing :
    append_only (files w)
      (files (fetch_missing_data now max_hours_back w).2)
    /\ ((fetch_missing_data now max_hours_back w).1 = Ok tt
        \/ (fetch_missing_data now max_hours_back w).1
           = Raise OverflowError)).
  { apply for_loop_append_only. intros city_name w0 Hk.
    destruct (fetch_missing_city_append_only now max_hours_back _ w0 Hk)
      as (Hap & Hok & _).
    by split. }
  assert (Hlatest :
    append_only (files w) (files (fetch_latest_hour now w).2)
    /\ ((fetch_latest_hour now w).1 = Ok tt
        \/ (fetch_latest_hour now w).1 = Raise OverflowError)
    /\ (DT.in_calendar (DT.hours_before now 1) = true ->
        (fetch_latest_hour now w).1 = Ok tt)).
  { unfold fetch_latest_hour. unfold mbind at 1 3 5 7, M_bind at 1 3 5 7.
    unfold lift at 1 3 5 7.
    destruct (DT.in_calendar (DT.hours_before now 1)) eqn:Hin.
    - rewrite (target_hour_ok _ _ Hin).
      set (latest_hour := DT.floor_to_hour (DT.hours_before now 1)).
      destruct (for_loop_append_only
                  (fun _ city_name =>
                     existing_df ← load_existing_data city_name;
                     present ← lift (data_exists existing_df
                                       (Datetime latest_hour));
                     if present : bool then mret tt
                     else fetch_city_data city_name [latest_hour])
                  (keys CITIES) w) as [Hap Hok].
      { intros city_name w0 Hk.
        destruct (fetch_latest_city latest_hour city_name w0 Hk)
          as [Hok Hap].
        split; [done|by left]. }
      split; [done|]. split; [done|]. intros _.
      apply for_loop_ok. intros city_name w0 Hk.
      by apply (fetch_latest_city latest_hour city_name w0 Hk).
    - rewrite (target_hour_overflow _ _ Hin).
      split; [apply append_only_refl|]. split; [by right|done]. }
  destruct Hmissing as [Hap1 Hok1]. destruct Hlatest as (Hap2 & Hok2 & Hin2).
  split; [by split|]. split; [|split].
  - intros Hv Hb. apply for_loop_ok. intros city_name w0 Hk.
    apply (fetch_missing_city_append_only now max_hours_back _ w0 Hk).
    by apply window_ok_within.
  - intros Hv Hb. apply Hin2.
    by apply (hours_before_in_calendar now 1 Hv).
  - intros e [He | He].
    + rewrite He in Hok1. destruct Hok1 as [Hok1 | Hok1]; congruence.
    + rewrite He in Hok2. destruct Hok2 as [Hok2 | Hok2]; congruence.
Qed.

End Files.

(** ** What the runs ask for, and what they find afterwards *)

Section Runs.
Context {Nm : Numbers} {Up : Upstream}.

Lemma save_to_csv_trace (city_name : string) (info : city_info)
    (records : list WeatherRecord) (w : world) :
  getitem CITIES city_name = Ok info ->
  trace (save_to_csv city_name records w).2
  = trace w
    ++ match records with
       | [] => []
       | _ => [FileAppend (store_path info)
                 (written_lines (files w !! store_path info) records)]
       end.
Proof.
  intros Hc. destruct records as [|r records].
  { simpl. by rewrite app_nil_r. }
  by rewrite (save_to_csv_written _ _ _ _ Hc).
Qed.

(** X6.  A backfill never asks for an hour the store already has: every
    weather request a run for a city sends is the request for an hour of
    the window that the store, as it loads before the run, does not hold. *)
Theorem stored_hours_are_not_requested (now : datetime) (hours_back : Z)
    (city_name : string) (info : city_info) (w : world) :
  getitem CITIES city_name = Ok info ->
  exists evs,
    trace (fetch_missing_city now hours_back city_name w).2 = trace w ++ evs
    /\ forall la lo ts,
         WeatherRequest la lo ts ∈ evs ->
         exists t,
           t ∈ candidate_hours now hours_back
           /\ (t ∉ timestamp <$> loaded (files w !! store_path info))
           /\ ts = DT.timestamp t.
Proof.
  intros Hc. destruct (window_ok_dec now hours_back) as [Hw | Hw].
  2:{ rewrite (fetch_missing_city_overflow _ _ _ _ _ Hc Hw).
      exists []. split; [by rewrite app_nil_r|].
      intros la lo ts Hin. by apply elem_of_nil in Hin. }
  unfold fetch_missing_city. unfold mbind, M_bind.
  rewrite (get_missing_hours_filter _ _ _ _ _ Hc Hw).
  set (m := filter _ _).
  assert (Hm : forall t, t ∈ m ->
            t ∈ candidate_hours now hours_back
            /\ t ∉ timestamp <$> loaded (files w !! store_path info)).
  { intros t Ht. by apply list_elem_of_filter in Ht as [Hp Ht]. }
  destruct m as [|t0 m0] eqn:Heq.
  { exists []. split; [by rewrite app_nil_r|].
    intros la lo ts Hin. by apply elem_of_nil in Hin. }
  rewrite <- Heq in *. assert (Hne : m <> []) by (by rewrite Heq).
  clear Heq. destruct (geocoding (query info)) as [[|p ps]|e] eqn:Hg.
  - rewrite (fetch_city_data_unresolved _ _ _ _ Hc) by auto.
    eexists. split; [done|]. intros la lo ts Hin.
    apply list_elem_of_singleton in Hin. discriminate Hin.
  - rewrite (fetch_city_data_resolved _ _ _ _ _ _ Hc Hg Hne).
    rewrite (save_to_csv_trace _ _ _ _ Hc). cbn [after_requests trace files].
    rewrite <- app_assoc. eexists. split; [done|].
    intros la lo ts Hin.
    apply elem_of_app in Hin as [Hin | Hin].
    + apply elem_of_cons in Hin as [Hin | Hin]; [discriminate Hin|].
      unfold weather_requests in Hin.
      apply list_elem_of_fmap in Hin as (t & [= -> -> ->] & Ht).
      exists t. destruct (Hm t Ht). by repeat split.
    + destruct (records_for (lat p) (lon p) m).
      * by apply elem_of_nil in Hin.
      * apply list_elem_of_singleton in Hin. discriminate Hin.
  - rewrite (fetch_city_data_unresolved _ _ _ _ Hc) by eauto.
    eexists. split; [done|]. intros la lo ts Hin.
    apply list_elem_of_singleton in Hin. discriminate Hin.
Qed.

Lemma for_loop_ext_in {A S} (b1 b2 : S -> A -> M S) (xs : list A) (s : S)
    (w : world) :
  (forall x s0 w0, x ∈ xs -> b1 s0 x w0 = b2 s0 x w0) ->
  for_loop b1 xs s w = for_loop b2 xs s w.
Proof.
  revert s w. induction xs as [|x xs IH]; intros s w Hext; [done|].
  simpl. unfold mbind, M_bind. rewrite (Hext x s w) by left.
  destruct (b2 s x w) as [[s'|e] w']; [|done].
  apply IH. intros y s0 w0 Hy. apply Hext. by right.
Qed.

Lemma candidate_hours_one (now : datetime) :
  candidate_hours now 1 = [DT.floor_to_hour (DT.hours_before now 1)].
Proof. reflexivity. Qed.

Lemma window_ok_one (now : datetime) :
  window_ok now 1 <-> DT.in_calendar (DT.hours_before now 1) = true.
Proof.
  unfold window_ok. change (seqZ 1 1) with [1]. by rewrite Forall_singleton.
Qed.

(** X9.  Fetching the latest hour is the backfill of a window of one hour:
    with the same reading of the clock, [fetch_latest_hour] and
    [fetch_missing_data] with [max_hours_back = 1] return the same and leave
    the same files and the same trace of requests and appends. *)
Theorem fetch_latest_hour_is_backfill_of_one_hour (now : datetime)
    (w : world) :
  fetch_latest_hour now w = fetch_missing_data now 1 w.
Proof.
  unfold fetch_latest_hour, fetch_missing_data.
  unfold mbind at 1, M_bind at 1, lift at 1.
  destruct (DT.in_calendar (DT.hours_before now 1)) eqn:Hin.
  - rewrite (target_hour_ok _ _ Hin).
    apply for_loop_ext_in. intros city_name [] w0 Hk.
    destruct (getitem_of_key _ _ Hk) as [info Hc].
    unfold fetch_missing_city. unfold mbind, M_bind.
    rewrite (load_existing_data_loaded _ _ _ Hc).
    rewrite (get_missing_hours_filter _ _ _ _ _ Hc)
      by (by apply window_ok_one).
    rewrite candidate_hours_one, filter_cons, filter_nil.
    unfold lift. rewrite data_exists_datetime.
    destruct (decide (DT.floor_to_hour (DT.hours_before now 1)
                      ∈ timestamp <$> loaded (files w0 !! store_path info)))
      as [Hs | Hs].
    + rewrite bool_decide_true by done. by rewrite decide_False by auto.
    + rewrite bool_decide_false by done. by rewrite decide_True.
  - rewrite (target_hour_overflow _ _ Hin).
    change (keys CITIES) with ["Cape Town"; "Kigali"; "Kampala"]%string.
    cbn [for_loop]. unfold mbind at 1, M_bind at 1.
    rewrite (fetch_missing_city_overflow _ _ "Cape Town"
               (mk_city_info "Cape Town,ZA" "cape_town_weather.csv"));
      [done|done|].
    rewrite window_ok_one. by rewrite Hin.
Qed.

Lemma fetch_missing_city_nothing_missing (now : datetime) (hours_back : Z)
    (city_name : string) (info : city_info) (w : world) :
  getitem CITIES city_name = Ok info ->
  (forall t, t ∈ candidate_hours now hours_back ->
     t ∈ timestamp <$> loaded (files w !! store_path info)) ->
  fetch_missing_city now hours_back city_name w = (Ok tt, w).
Proof.
  intros Hc Hall. unfold fetch_missing_city. unfold mbind, M_bind.
  by rewrite (proj2 (get_missing_hours_nil _ _ _ _ _ Hc) Hall).
Qed.

Lemma for_loop_noop {A} (body : unit -> A -> M unit) (xs : list A)
    (w : world) :
  (forall x, x ∈ xs -> body tt x w = (Ok tt, w)) ->
  for_loop body xs tt w = (Ok tt, w).
Proof.
  induction xs as [|x xs IH]; intros Hbody; [done|].
  simpl. unfold mbind, M_bind. rewrite (Hbody x) by left.
  apply IH. intros y Hy. apply Hbody. by right.
Qed.

(** X10.  When the store of every configured city holds every hour of the
    window, [fetch_missing_data] does nothing at all: it returns with the
    files and the trace as they were, no request sent; and so does
    [fetch_latest_hour] when every store holds the hour before the current
    one. *)
Theorem nothing_to_fetch_anywhere (now : datetime) (max_hours_back : Z)
    (w : world) :
  ((forall city_name info t,
      getitem CITIES city_name = Ok info ->
      t ∈ candidate_hours now max_hours_back ->
      t ∈ timestamp <$> loaded (files w !! store_path info)) ->
   fetch_missing_data now max_hours_back w = (Ok tt, w))
  /\ ((forall city_name info,
         getitem CITIES city_name = Ok info ->
         DT.floor_to_hour (DT.hours_before now 1)
         ∈ timestamp <$> loaded (files w !! store_path info)) ->
      fetch_latest_hour now w = (Ok tt, w)).
Proof.
  split.
  - intros Hall. apply for_loop_noop. intros city_name Hk.
    destruct (getitem_of_key _ _ Hk) as [info Hc].
    apply (fetch_missing_city_nothing_missing _ _ _ info); [done|].
    intros t Ht. by apply (Hall city_name).
  - intros Hall. unfold fetch_latest_hour.
    unfold mbind at 1, M_bind at 1, lift at 1.
    rewrite target_hour_ok.
    2:{ change (DT.in_calendar (DT.hours_before now 1))
          with (DT.in_calendar (DT.floor_to_hour (DT.hours_before now 1))).
        apply (loaded_in_calendar
                 (files w !! store_path
                    (mk_city_info "Cape Town,ZA" "cape_town_weather.csv"))).
        by apply (Hall "Cape Town"). }
    apply for_loop_noop. intros city_name Hk.
    destruct (getitem_of_key _ _ Hk) as [info Hc].
    unfold mbind, M_bind. rewrite (load_existing_data_loaded _ _ _ Hc).
    unfold lift. rewrite data_exists_datetime.
    by rewrite bool_decide_true by (by apply (Hall city_name)).
Qed.

(** X11.  With an endpoint that echoes the hour it is asked for, what
    [fetch_city_data] fetched is found afterwards: once the coordinates
    resolve, for a store that is absent or holds the header and lines with
    whole-second timestamps, and for target hours that are valid datetimes
    on a whole second at instants pandas holds in nanoseconds, the store
    loads again, the existence check is true for every target hour that
    yielded a record, and it stays true for every timestamp the store held
    before. *)
Theorem fetched_hours_exist_afterwards (city_name : string)
    (info : city_info) (p : place) (ps : list place)
    (target_times : list datetime) (df : DataFrame) (w : world) :
  getitem CITIES city_name = Ok info ->
  echoes ->
  geocoding (query info) = Ok (p :: ps) ->
  holds (files w !! store_path info) df ->
  Forall storable target_times ->
  let w' := (fetch_city_data city_name target_times w).2 in
  exists df',
    load_existing_data city_name w' = (Ok df', w')
    /\ (forall t, t ∈ target_times ->
          is_Some (record_for (lat p) (lon p) t) ->
          data_exists df' (Datetime t) = Ok true)
    /\ (forall t, t ∈ timestamp <$> df ->
          data_exists df' (Datetime t) = Ok true).
Proof.
  intros Hc He Hg Hh Hv w'.
  set (recs := omap (yield info) target_times).
  assert (Hts : timestamp <$> recs
                = filter (fun t => is_Some (yield info t)) target_times)
    by (by apply omap_yield_timestamps).
  assert (Hf : files w' = files (save_to_csv city_name recs w).2).
  { subst w'. by apply fetch_city_data_yield. }
  assert (Hvr : Forall (fun r => storable (timestamp r)) recs)
    by (by apply omap_yield_storable).
  assert (Hh' : holds (files w' !! store_path info)
                  (df ++ (as_stored <$> recs))).
  { rewrite Hf. by apply save_to_csv_holds. }
  exists (df ++ (as_stored <$> recs)). split; [|split].
  - rewrite (load_existing_data_loaded _ _ _ Hc).
    by rewrite (holds_loaded _ _ Hh').
  - intros t Ht Hy. apply data_exists_true.
    rewrite fmap_app, timestamp_as_stored, Hts. apply elem_of_app. right.
    apply list_elem_of_filter. split; [|done].
    unfold yield. by rewrite Hg.
  - intros t Ht. apply data_exists_true.
    rewrite fmap_app. apply elem_of_app. by left.
Qed.

End Runs.

(** ** The dashboard and the fetcher agree on the files *)

(** X13.  The dashboard reads what the fetcher writes: the two tables list
    the same cities in the same order, and for every configured city the
    dashboard's table has the file name of the fetcher's, and the URL the
    dashboard requests is the root of the repository's files followed by the
    path of the city's store. *)
Theorem dashboard_reads_the_stores (city_name : string) (info : city_info) :
  getitem CITIES city_name = Ok info ->
  keys CITY_FILES = keys CITIES
  /\ getitem CITY_FILES city_name = Ok (filename info)
  /\ github_url (filename info)
     = (repository_root +:+ "/" +:+ store_path info)%string.
Proof.
  intros Hc. split; [done|]. revert Hc. unfold CITIES, CITY_FILES. simpl.
  repeat (destruct (decide _); [by intros [= <-]|]).
  done.
Qed.

(** ** The further properties at concrete inputs *)

Section MoreWitnesses.
Import Examples MoreExamples.

Lemma nairobi_unknown : "Nairobi" ∉ keys CITIES.
Proof. apply (bool_decide_unpack _). by vm_compute. Qed.

Lemma stocked_world_has_latest (city_name : string) (info : city_info)
    (t : datetime) :
  getitem CITIES city_name = Ok info ->
  t ∈ candidate_hours now 1 ->
  t ∈ timestamp <$> loaded (files stocked_world !! store_path info).
Proof.
  intros Hc Ht. rewrite candidate_hours_one in Ht.
  apply list_elem_of_singleton in Ht as ->.
  revert Hc. unfold CITIES. simpl.
  repeat (destruct (decide _);
          [intros [= <-]; apply (bool_decide_unpack _); by vm_compute|]).
  done.
Qed.

Lemma beyond_the_calendar : ~ within_calendar now 17733251.
Proof. vm_compute. intros H. by apply H. Qed.

End MoreWitnesses.

Lemma fetch_city_data_gives_up_without_coordinates_witness :
  let run :=
    @fetch_city_data Examples.decimal_numbers MoreExamples.lost_upstream
      "Cape Town" [Examples.at_hour 9; Examples.at_hour 8]
      Examples.empty_world in
  run.1 = Ok tt
  /\ files run.2 = files Examples.empty_world
  /\ trace run.2
     = [@GeocodingRequest Examples.decimal_numbers "Cape Town,ZA"].
Proof.
  intros run.
  destruct (@fetch_city_data_gives_up_without_coordinates
              Examples.decimal_numbers MoreExamples.lost_upstream
              "Cape Town" Examples.cape_town_info
              [Examples.at_hour 9; Examples.at_hour 8] Examples.empty_world
              eq_refl ltac:(discriminate) (or_introl eq_refl))
    as (_ & Hok & Hfiles & Htrace).
  repeat split; assumption.
Defined.

Lemma unknown_city_raises_KeyError_witness :
  @fetch_city_data Examples.decimal_numbers Examples.echo_upstream
    "Nairobi" [Examples.at_hour 9] Examples.empty_world
  = (Raise (KeyError "Nairobi"), Examples.empty_world)
  /\ @save_to_csv Examples.decimal_numbers "Nairobi"
       [Examples.reading (Examples.at_hour 9)] Examples.empty_world
     = (Raise (KeyError "Nairobi"), Examples.empty_world).
Proof.
  destruct (@unknown_city_raises_KeyError Examples.decimal_numbers
              Examples.echo_upstream "Nairobi" Examples.now 3
              [Examples.reading (Examples.at_hour 9)] [Examples.at_hour 9]
              Examples.empty_world nairobi_unknown
              ltac:(discriminate) ltac:(discriminate))
    as (_ & _ & _ & Hsave & Hfetch & _).
  split; assumption.
Defined.

Lemma empty_file_never_gets_a_header_witness :
  let w' :=
    (@save_to_csv Examples.decimal_numbers "Cape Town"
       [Examples.reading (Examples.at_hour 9)]
       MoreExamples.touched_world).2 in
  files w' !! Examples.cape_town_csv = Some [MoreExamples.line_at 9]
  /\ @load_existing_data Examples.decimal_numbers "Cape Town" w'
     = (Ok [], w')
  /\ @get_missing_hours Examples.decimal_numbers Examples.now "Cape Town" 3
       w'
     = (Ok (candidate_hours Examples.now 3), w').
Proof.
  intros w'.
  destruct (@empty_file_never_gets_a_header Examples.decimal_numbers
              "Cape Town" Examples.cape_town_info
              [Examples.reading (Examples.at_hour 9)]
              MoreExamples.touched_world eq_refl eq_refl
              ltac:(discriminate))
    as (_ & Hfile & Hload & Hmissing).
  split; [exact Hfile|]. split; [exact Hload|].
  apply Hmissing; [exact now_valid|by vm_compute].
Defined.

Lemma data_exists_int_agrees_witness :
  data_exists [Examples.stored_reading (Examples.at_hour 9)]
    (Int (DT.timestamp (Examples.at_hour 9)))
  = data_exists [Examples.stored_reading (Examples.at_hour 9)]
      (Datetime (Examples.at_hour 9)).
Proof.
  apply data_exists_int_agrees; [exact at_hour_9_valid|reflexivity].
Defined.

Lemma nothing_missing_is_silent_witness :
  @fetch_missing_city Examples.decimal_numbers Examples.echo_upstream
    Examples.now 3 "Cape Town" MoreExamples.stocked_world
  = (Ok tt, MoreExamples.stocked_world).
Proof.
  destruct (@nothing_missing_is_silent Examples.decimal_numbers
              Examples.echo_upstream Examples.now "Cape Town"
              Examples.cape_town_info 3 MoreExamples.stocked_world eq_refl)
    as (Hiff & Hsilent & _).
  apply Hsilent, Hiff. by vm_compute.
Defined.

Lemma get_missing_hours_descending_witness :
  exists missing_hours,
    @get_missing_hours Examples.decimal_numbers Examples.now "Cape Town" 3
      Examples.empty_world = (Ok missing_hours, Examples.empty_world)
    /\ descending missing_hours
    /\ NoDup missing_hours.
Proof.
  exact (@get_missing_hours_descending Examples.decimal_numbers
           Examples.now "Cape Town" Examples.cape_town_info 3
           Examples.empty_world eq_refl now_valid ltac:(by vm_compute)).
Defined.

Lemma window_outside_calendar_raises_witness :
  @get_missing_hours Examples.decimal_numbers Examples.now "Cape Town"
    17733251 Examples.empty_world
  = (Raise OverflowError, Examples.empty_world)
  /\ @fetch_missing_data Examples.decimal_numbers Examples.echo_upstream
       Examples.now 17733251 Examples.empty_world
     = (Raise OverflowError, Examples.empty_world)
  /\ exists missing_hours,
       @get_missing_hours Examples.decimal_numbers Examples.now "Cape Town"
         3 Examples.empty_world = (Ok missing_hours, Examples.empty_world).
Proof.
  destruct (@window_outside_calendar_raises Examples.decimal_numbers
              Examples.echo_upstream Examples.now "Cape Town"
              Examples.cape_town_info 17733251 Examples.empty_world
              eq_refl now_valid)
    as (_ & Hraise & _).
  destruct (Hraise beyond_the_calendar) as [Hm Hrun].
  split; [exact Hm|]. split; [exact Hrun|].
  apply (@window_outside_calendar_raises Examples.decimal_numbers
           Examples.echo_upstream Examples.now "Cape Town"
           Examples.cape_town_info 3 Examples.empty_world
           eq_refl now_valid).
  by vm_compute.
Defined.

Lemma fetch_city_data_touches_its_store_only_witness :
  let run :=
    @fetch_city_data Examples.decimal_numbers Examples.flaky_upstream
      "Cape Town" (Examples.at_hour <$> [9; 6])
      MoreExamples.stocked_world in
  run.1 = Ok tt
  /\ files run.2 !! MoreExamples.kigali_csv
     = files MoreExamples.stocked_world !! MoreExamples.kigali_csv
  /\ exists more,
       files run.2 !! Examples.cape_town_csv
       = Some ([fieldnames; MoreExamples.line_at 9; MoreExamples.line_at 8;
                MoreExamples.line_at 7] ++ more).
Proof.
  intros run.
  destruct (@fetch_city_data_touches_its_store_only
              Examples.decimal_numbers Examples.flaky_upstream "Cape Town"
              Examples.cape_town_info (Examples.at_hour <$> [9; 6])
              MoreExamples.stocked_world eq_refl)
    as (Hok & Hother & Hown).
  split; [exact Hok|]. split.
  - apply Hother. discriminate.
  - apply Hown. reflexivity.
Defined.

Lemma runs_never_raise_and_only_append_witness :
  (@fetch_missing_data Examples.decimal_numbers Examples.flaky_upstream
     Examples.now 3 MoreExamples.stocked_world).1 = Ok tt
  /\ (@fetch_latest_hour Examples.decimal_numbers Examples.flaky_upstream
        Examples.now MoreExamples.stocked_world).1 = Ok tt
  /\ append_only (files MoreExamples.stocked_world)
       (files
          (@fetch_missing_data Examples.decimal_numbers
             Examples.flaky_upstream Examples.now 3
             MoreExamples.stocked_world).2).
Proof.
  destruct (@runs_never_raise_and_only_append Examples.decimal_numbers
              Examples.flaky_upstream Examples.now 3
              MoreExamples.stocked_world)
    as ((Hap & _) & Hmissing & Hlatest & _).
  split; [apply Hmissing; [exact now_valid|by vm_compute]|].
  split; [apply Hlatest; [exact now_valid|by vm_compute]|exact Hap].
Defined.

Lemma stored_hours_are_not_requested_witness :
  exists evs,
    trace
      (@fetch_missing_city Examples.decimal_numbers Examples.echo_upstream
         Examples.now 5 "Cape Town" MoreExamples.stocked_world).2
    = trace MoreExamples.stocked_world ++ evs
    /\ forall la lo ts,
         @WeatherRequest Examples.decimal_numbers la lo ts ∈ evs ->
         exists t,
           t ∈ candidate_hours Examples.now 5
           /\ (t ∉ timestamp
                   <$> loaded
                         (files MoreExamples.stocked_world
                          !! store_path Examples.cape_town_info))
           /\ ts = DT.timestamp t.
Proof.
  exact (@stored_hours_are_not_requested Examples.decimal_numbers
           Examples.echo_upstream Examples.now 5 "Cape Town"
           Examples.cape_town_info MoreExamples.stocked_world eq_refl).
Defined.

Lemma nothing_to_fetch_anywhere_witness :
  @fetch_missing_data Examples.decimal_numbers Examples.echo_upstream
    Examples.now 1 MoreExamples.stocked_world
  = (Ok tt, MoreExamples.stocked_world)
  /\ @fetch_latest_hour Examples.decimal_numbers Examples.echo_upstream
       Examples.now MoreExamples.stocked_world
     = (Ok tt, MoreExamples.stocked_world).
Proof.
  destruct (@nothing_to_fetch_anywhere Examples.decimal_numbers
              Examples.echo_upstream Examples.now 1
              MoreExamples.stocked_world)
    as (Hall & Hlatest).
  split.
  - apply Hall. intros city_name info t Hc Ht.
    by apply (stocked_world_has_latest city_name).
  - apply Hlatest. intros city_name info Hc.
    apply (stocked_world_has_latest city_name); [done|].
    rewrite candidate_hours_one. left.
Defined.

Lemma fetched_hours_exist_afterwards_witness :
  let w' :=
    (@fetch_city_data Examples.decimal_numbers Examples.echo_upstream
       "Cape Town" [Examples.at_hour 9] Examples.empty_world).2 in
  exists df',
    @load_existing_data Examples.decimal_numbers "Cape Town" w'
    = (Ok df', w')
    /\ data_exists df' (Datetime (Examples.at_hour 9)) = Ok true.
Proof.
  intros w'.
  destruct (@fetched_hours_exist_afterwards Examples.decimal_numbers
              Examples.echo_upstream "Cape Town" Examples.cape_town_info
              Examples.cape_town [] [Examples.at_hour 9] []
              Examples.empty_world eq_refl
              echo_upstream_echoes eq_refl empty_store_holds
              (proj2 (Forall_singleton _ _) at_hour_9_storable))
    as (df' & Hload & Hnew & _).
  exists df'. split; [exact Hload|].
  apply Hnew; [left | by eexists].
Defined.

Lemma dashboard_reads_the_stores_witness :
  getitem CITY_FILES "Kigali" = Ok "kigali_weather.csv"
  /\ github_url "kigali_weather.csv"
     = (repository_root +:+ "/weather_data/kigali_weather.csv")%string.
Proof.
  destruct (dashboard_reads_the_stores "Kigali"
              (mk_city_info "Kigali,RW" "kigali_weather.csv") eq_refl)
    as (_ & Hfile & Hurl).
  split; [exact Hfile | exact Hurl].
Defined.

(** ** Batches, windows and cities compose *)

Section Composition.
Context {Nm : Numbers} {Up : Upstream}.

(** X14.  The header is written at most once: appending two batches one
    after the other leaves the files as appending both at once does,
    whatever the store was before. *)
Theorem save_to_csv_twice (city_name : string) (info : city_info)
    (first second : list WeatherRecord) (w : world) :
  getitem CITIES city_name = Ok info ->
  files (save_to_csv city_name second (save_to_csv city_name first w).2).2
  = files (save_to_csv city_name (first ++ second) w).2.
Proof.
  intros Hc. destruct first as [|r1 first]; [done|].
  destruct second as [|r2 second]; [by rewrite app_nil_r|].
  rewrite !(save_to_csv_written _ _ _ _ Hc) by done.
  cbn [snd files]. rewrite lookup_insert_eq, insert_insert_eq.
  f_equal. unfold written_lines. cbn [default from_option id].
  rewrite fmap_app. by rewrite <- !app_assoc.
Qed.

(** X15.  A longer window only adds older hours: as long as the longer
    window lies within the calendar, the missing hours of a window of
    [hours_back + more] hours are those of the window of [hours_back]
    hours, in the same order, followed by missing hours that lie more than
    [hours_back] hours back. *)
Theorem get_missing_hours_window_grows (now : datetime)
    (city_name : string) (info : city_info) (hours_back more : Z)
    (w : world) :
  getitem CITIES city_name = Ok info ->
  DT.valid now ->
  0 <= hours_back -> 0 <= more ->
  within_calendar now (hours_back + more) ->
  exists missing_hours older,
    get_missing_hours now city_name hours_back w = (Ok missing_hours, w)
    /\ get_missing_hours now city_name (hours_back + more) w
       = (Ok (missing_hours ++ older), w)
    /\ forall t, t ∈ older ->
         exists i, hours_back < i <= hours_back + more
                   /\ t = DT.floor_to_hour (DT.hours_before now i).
Proof.
  intros Hc Hv Hb Hm Hw.
  assert (Hw' : within_calendar now hours_back).
  { unfold within_calendar in *. lia. }
  rewrite !(get_missing_hours_filter _ _ _ _ _ Hc)
    by (by apply window_ok_within).
  unfold candidate_hours. rewrite seqZ_app, fmap_app, filter_app by done.
  do 2 eexists. split; [done|]. split; [done|].
  intros t Ht. apply list_elem_of_filter in Ht as [_ Ht].
  apply list_elem_of_fmap in Ht as (i & -> & Hi).
  apply elem_of_seqZ in Hi. exists i. split; [lia|done].
Qed.

Lemma fetch_missing_city_other_files (now : datetime) (hours_back : Z)
    (city_name : string) (info : city_info) (w : world) (p : string) :
  getitem CITIES city_name = Ok info ->
  window_ok now hours_back ->
  p <> store_path info ->
  files (fetch_missing_city now hours_back city_name w).2 !! p
  = files w !! p.
Proof.
  intros Hc Hw Hp.
  destruct (fetch_missing_city_files now hours_back _ _ w Hc Hw) as [_ Hf].
  rewrite Hf. by apply (save_to_csv_other_files _ info).
Qed.

(** What a run for a city makes of the city's store depends on that store
    only. *)
Lemma fetch_missing_city_local (now : datetime) (hours_back : Z)
    (city_name : string) (info : city_info) (w w0 : world) :
  getitem CITIES city_name = Ok info ->
  window_ok now hours_back ->
  files w !! store_path info = files w0 !! store_path info ->
  files (fetch_missing_city now hours_back city_name w).2 !! store_path info
  = files (fetch_missing_city now hours_back city_name w0).2
    !! store_path info.
Proof.
  intros Hc Hw Heq.
  destruct (fetch_missing_city_files now hours_back _ _ w Hc Hw)
    as [_ Hf].
  destruct (fetch_missing_city_files now hours_back _ _ w0 Hc Hw)
    as [_ Hf0].
  rewrite Hf, Hf0. clear Hf Hf0. rewrite Heq.
  destruct (omap (yield info) _) as [|r rs]; [exact Heq|].
  rewrite !(save_to_csv_written _ _ _ _ Hc) by done. cbn [snd files].
  by rewrite !lookup_insert_eq, Heq.
Qed.

(** Two configured cities have two stores. *)
Lemma store_paths_distinct (c1 c2 : string) (i1 i2 : city_info) :
  getitem CITIES c1 = Ok i1 ->
  getitem CITIES c2 = Ok i2 ->
  c1 <> c2 ->
  store_path i1 <> store_path i2.
Proof.
  unfold CITIES. simpl. intros H1 H2 Hne.
  repeat (destruct (decide (_ = c1)); [injection H1 as <-|]);
    try discriminate H1;
    repeat (destruct (decide (_ = c2)); [injection H2 as <-|]);
    try discriminate H2; (congruence || discriminate).
Qed.

Lemma for_loop_per_city (now : datetime) (hours_back : Z)
    (cities : list string) (city_name : string) (info : city_info)
    (w : world) :
  (forall c, c ∈ cities -> c ∈ keys CITIES) ->
  NoDup cities ->
  getitem CITIES city_name = Ok info ->
  files
    (for_loop (fun _ c => fetch_missing_city now hours_back c) cities tt w).2
  !! store_path info
  = if decide (city_name ∈ cities)
    then files (fetch_missing_city now hours_back city_name w).2
         !! store_path info
    else files w !! store_path info.
Proof.
  intros Hk Hnd Hc.
  destruct (window_ok_dec now hours_back) as [Hw | Hw].
  2:{ rewrite (fetch_missing_city_overflow _ _ _ _ _ Hc Hw).
      destruct cities as [|c cities]; [by destruct (decide _)|].
      destruct (getitem_of_key _ _ (Hk c ltac:(left))) as [ic Hic].
      cbn [for_loop]. unfold mbind, M_bind.
      rewrite (fetch_missing_city_overflow _ _ _ _ _ Hic Hw).
      by destruct (decide _). }
  revert w.
  induction cities as [|c cities IH]; intros w.
  { by rewrite decide_False by apply not_elem_of_nil. }
  apply NoDup_cons in Hnd as [Hnin Hnd].
  assert (Hk' : forall c0, c0 ∈ cities -> c0 ∈ keys CITIES)
    by (intros c0 Hc0; apply Hk; by right).
  destruct (getitem_of_key _ _ (Hk c ltac:(left))) as [ic Hic].
  simpl. unfold mbind, M_bind.
  destruct (fetch_missing_city_files now hours_back _ _ w Hic Hw)
    as [Hok _].
  destruct (fetch_missing_city now hours_back c w) as [[[]|e] w1] eqn:Hrun;
    [|done].
  rewrite (IH Hk' Hnd w1).
  destruct (decide (c = city_name)) as [-> | Hne].
  - rewrite decide_False by done. rewrite decide_True by left.
    by rewrite Hrun.
  - assert (Hframe : files w1 !! store_path info = files w !! store_path info).
    { change w1 with (Ok (), w1).2. rewrite <- Hrun.
      apply (fetch_missing_city_other_files _ _ _ ic); [done|done|].
      intros Heq. by apply (store_paths_distinct _ _ _ _ Hc Hic). }
    destruct (decide (city_name ∈ cities)) as [Hin | Hin].
    + rewrite decide_True by (by right).
      by apply fetch_missing_city_local.
    + rewrite decide_False; [done|].
      intros Hin'. apply elem_of_cons in Hin' as [-> | Hin']; done.
Qed.

(** X16.  The cities of a run do not interfere: what [fetch_missing_data]
    leaves in the store of a configured city is what the backfill of that
    city alone, run on the same files, leaves there. *)
Theorem fetch_missing_data_per_city (now : datetime) (max_hours_back : Z)
    (city_name : string) (info : city_info) (w : world) :
  getitem CITIES city_name = Ok info ->
  files (fetch_missing_data now max_hours_back w).2 !! store_path info
  = files (fetch_missing_city now max_hours_back city_name w).2
    !! store_path info.
Proof.
  intros Hc. unfold fetch_missing_data.
  rewrite (for_loop_per_city _ _ _ city_name info); try done.
  - rewrite decide_True; [done|]. by apply (getitem_known _ _ info).
  - apply (bool_decide_unpack _). by vm_compute.
Qed.

End Composition.

Lemma save_to_csv_twice_witness :
  files
    (@save_to_csv Examples.decimal_numbers "Cape Town"
       [Examples.reading (Examples.at_hour 8)]
       (@save_to_csv Examples.decimal_numbers "Cape Town"
          [Examples.reading (Examples.at_hour 9)] Examples.empty_world).2).2
  = files
      (@save_to_csv Examples.decimal_numbers "Cape Town"
         [Examples.reading (Examples.at_hour 9);
          Examples.reading (Examples.at_hour 8)] Examples.empty_world).2.
Proof.
  exact (@save_to_csv_twice Examples.decimal_numbers "Cape Town"
           Examples.cape_town_info [Examples.reading (Examples.at_hour 9)]
           [Examples.reading (Examples.at_hour 8)] Examples.empty_world
           eq_refl).
Defined.

Lemma get_missing_hours_window_grows_witness :
  exists missing_hours older,
    @get_missing_hours Examples.decimal_numbers Examples.now "Cape Town" 2
      Examples.empty_world = (Ok missing_hours, Examples.empty_world)
    /\ @get_missing_hours Examples.decimal_numbers Examples.now "Cape Town"
         (2 + 3) Examples.empty_world
       = (Ok (missing_hours ++ older), Examples.empty_world).
Proof.
  destruct (@get_missing_hours_window_grows Examples.decimal_numbers
              Examples.now "Cape Town" Examples.cape_town_info 2 3
              Examples.empty_world eq_refl now_valid ltac:(lia) ltac:(lia)
              ltac:(by vm_compute))
    as (missing_hours & older & H1 & H2 & _).
  exists missing_hours, older. split; assumption.
Defined.

Lemma fetch_missing_data_per_city_witness :
  files
    (@fetch_missing_data Examples.decimal_numbers Examples.echo_upstream
       Examples.now 3 MoreExamples.stocked_world).2
  !! MoreExamples.kigali_csv
  = files
      (@fetch_missing_city Examples.decimal_numbers Examples.echo_upstream
         Examples.now 3 "Kigali" MoreExamples.stocked_world).2
    !! MoreExamples.kigali_csv.
Proof.
  exact (@fetch_missing_data_per_city Examples.decimal_numbers
           Examples.echo_upstream Examples.now 3 "Kigali"
           (mk_city_info "Kigali,RW" "kigali_weather.csv")
           MoreExamples.stocked_world eq_refl).
Defined.
